(** * Verification of the AI-investment dashboard (app.py)

    A shallow embedding of [app.py]: the table of company-year
    observations, the pandas operations the script calls, the filter
    [filter_data], the aggregations of the four pages and the Streamlit
    calls of the page functions, followed by the properties the written
    specification states about them.

    Conventions of the embedding.
    - A DataFrame is the list of its rows, in row order; a Series is the
      list of its values.  Row labels travel with the rows and are not
      represented.
    - Currency amounts, percentages and scores are exact rationals [Q]
      (the script holds them as float64); equality of aggregates is [Qeq].
      A pandas NaN result (mean of nothing, correlation with a zero
      divisor) is [None].  Statements about sums, means and correlations
      are therefore statements of exact arithmetic: rounding, overflow
      and integer wrap-around are not represented, except in [stats64].
    - The cells of the table are well typed: no missing values. *)

From Stdlib Require Import List String Bool ZArith QArith.
From Stdlib Require Import Lia Lra Sorted Permutation.
From Stdlib Require Import Reals Qreals.
From Stdlib Require PrimFloat.
Import ListNotations.

Local Open Scope string_scope.
Local Open Scope Z_scope.

(** ** Data model *)

(** One row of [data/avanco_ia_empresas.csv]; [crescimento_lucro] is the
    column ["crescimento_lucro_%"]. *)
Record Registro : Type := mkRegistro {
  empresa : string;
  pais_sede : string;
  setor : string;
  ano : Z;
  investimento_ia_usd_milhoes : Q;
  crescimento_lucro : Q;
  nota_inovacao : Q;
  principais_usos_ia : string;
  impacto_operacional : string
}.

Definition DataFrame : Type := list Registro.

(** ** The pandas operations used by the script *)

(** Keys of [unique], [groupby] and [value_counts]: an equality test and
    the order in which pandas sorts group keys. *)
Class Key (K : Type) : Type := {
  keq : K -> K -> bool;
  kle : K -> K -> bool
}.

(** Strings are compared byte by byte, which on UTF-8 text is the order
    of the code points. *)
#[export] Instance string_Key : Key string :=
  {| keq := String.eqb; kle := String.leb |}.

#[export] Instance Z_Key : Key Z :=
  {| keq := Z.eqb; kle := Z.leb |}.

(** Tuples of keys are ordered lexicographically. *)
#[export] Instance pair_Key {A B : Type} `{Key A} `{Key B} : Key (A * B) :=
  {| keq := fun p q => keq (fst p) (fst q) && keq (snd p) (snd q);
     kle := fun p q =>
       if keq (fst p) (fst q) then kle (snd p) (snd q)
       else kle (fst p) (fst q) |}.

(** The laws of a key type. *)
Class KeyOk (K : Type) `{Key K} : Prop := {
  keq_spec : forall x y : K, keq x y = true <-> x = y;
  kle_total : forall x y : K, kle x y = true \/ kle y x = true
}.

(** Stable insertion sort by a boolean order: an element is placed before
    the first element it is below, so equal elements keep their order. *)
Section Sort.
Context {A : Type} (leb : A -> A -> bool).

Fixpoint insert (x : A) (l : list A) : list A :=
    match l with
    | [] => [x]
    | y :: l' => if leb x y then x :: l else y :: insert x l'
    end.

Definition sort (l : list A) : list A := fold_right insert [] l.
End Sort.

Module pd.

Definition Series (A : Type) : Type := list A.

  (** [df["name"]]. *)
Definition col {A : Type} (f : Registro -> A) (df : DataFrame) : Series A :=
    map f df.

  (** [s.isin(values)]. *)
Definition isin (s : Series string) (values : list string) : Series bool :=
    map (fun x => existsb (String.eqb x) values) s.

  (** [s >= k] and [s <= k]. *)
Definition ge (s : Series Z) (k : Z) : Series bool := map (fun x => x >=? k) s.
Definition le (s : Series Z) (k : Z) : Series bool := map (fun x => x <=? k) s.

  (** [a & b], element by element. *)
Definition and_ (a b : Series bool) : Series bool :=
    map (fun p => fst p && snd p) (combine a b).

  (** [s == v] where [v] may be [None]: nothing equals [None]. *)
Definition eq_ (s : Series string) (v : option string) : Series bool :=
    map (fun x => match v with Some c => String.eqb x c | None => false end) s.

  (** [df[mask]]: the rows at which the mask holds, in row order. *)
Fixpoint getitem {A : Type} (df : list A) (mask : Series bool) : list A :=
    match df, mask with
    | r :: df', b :: mask' =>
        if b then r :: getitem df' mask' else getitem df' mask'
    | _, _ => []
    end.

  (** [df.empty]. *)
Definition empty {A : Type} (df : list A) : bool :=
    match df with [] => true | _ :: _ => false end.

  (** [s.unique()]: the distinct values in order of first appearance,
      found with a table of the values already seen. *)
Fixpoint unique_from {K : Type} `{Key K} (seen : list K) (s : Series K)
      : list K :=
    match s with
    | [] => []
    | x :: s' =>
        if existsb (keq x) seen then unique_from seen s'
        else x :: unique_from (x :: seen) s'
    end.

Definition unique {K : Type} `{Key K} (s : Series K) : list K :=
    unique_from [] s.

  (** [s.nunique()]. *)
Definition nunique {K : Type} `{Key K} (s : Series K) : nat :=
    List.length (unique s).

  (** [s.min()] and [s.max()]; [None] is the NaN of an empty Series. *)
Definition min (s : Series Z) : option Z :=
    match s with
    | [] => None
    | x :: s' => Some (fold_left Z.min s' x)
    end.

Definition max (s : Series Z) : option Z :=
    match s with
    | [] => None
    | x :: s' => Some (fold_left Z.max s' x)
    end.

  (** [s.sum()]; the sum of nothing is 0. *)
Definition sum (s : Series Q) : Q := fold_left Qplus s (0#1)%Q.

  (** [s.mean()]; [None] is the NaN of an empty Series. *)
Definition mean (s : Series Q) : option Q :=
    match s with
    | [] => None
    | _ :: _ => Some (sum s / inject_Z (Z.of_nat (List.length s)))%Q
    end.

  (** [df.groupby(key)[value].sum().reset_index()]: one row per distinct
      key, the keys sorted, with the sum of the values of the key's rows. *)
Definition groupby_sum {K : Type} `{Key K} (keys : Series K)
      (values : Series Q) : list (K * Q) :=
    map (fun k => (k, sum (getitem values (map (fun k' => keq k' k) keys))))
        (sort kle (unique keys)).

  (** [s.nlargest(n)] on a keyed Series: the [n] largest values, largest
      first, equal values in their order in [s]. *)
Definition nlargest {K : Type} (n : nat) (s : list (K * Q)) : list (K * Q) :=
    firstn n (sort (fun a b => Qle_bool (snd b) (snd a)) s).

  (** [s.value_counts().reset_index()]: each distinct value with its
      number of occurrences, most frequent first. *)
Definition value_counts (s : Series string) : list (string * nat) :=
    sort (fun a b => Nat.leb (snd b) (snd a))
         (map (fun v => (v, List.length (getitem s (map (fun x => keq x v) s))))
              (unique s)).

End pd.

(** ** The filter *)

Definition filter_data (df : DataFrame) (countries sectors : list string)
    (year_range : Z * Z) : DataFrame :=
  pd.getitem df
    (pd.and_
       (pd.and_
          (pd.and_ (pd.isin (pd.col pais_sede df) countries)
                   (pd.isin (pd.col setor df) sectors))
          (pd.ge (pd.col ano df) (fst year_range)))
       (pd.le (pd.col ano df) (snd year_range))).

(** The row predicate the four masks amount to. *)
Definition keeps (countries sectors : list string) (year_range : Z * Z)
    (r : Registro) : bool :=
  existsb (String.eqb (pais_sede r)) countries
  && existsb (String.eqb (setor r)) sectors
  && (ano r >=? fst year_range)
  && (ano r <=? snd year_range).

(** ** The aggregates of the overview page *)

(** [filtered_df['investimento_ia_usd_milhoes'].sum()]. *)
Definition total_investido (filtered_df : DataFrame) : Q :=
  pd.sum (pd.col investimento_ia_usd_milhoes filtered_df).

(** [filtered_df["empresa"].nunique()]. *)
Definition numero_empresas (filtered_df : DataFrame) : nat :=
  pd.nunique (pd.col empresa filtered_df).

(** [filtered_df['crescimento_lucro_%'].mean()]. *)
Definition crescimento_medio (filtered_df : DataFrame) : option Q :=
  pd.mean (pd.col crescimento_lucro filtered_df).

Definition investment_by_year (filtered_df : DataFrame) : list (Z * Q) :=
  pd.groupby_sum (pd.col ano filtered_df)
                 (pd.col investimento_ia_usd_milhoes filtered_df).

Definition top_companies (filtered_df : DataFrame) : list (string * Q) :=
  pd.nlargest 10
    (pd.groupby_sum (pd.col empresa filtered_df)
                    (pd.col investimento_ia_usd_milhoes filtered_df)).

(** ** Correlation *)

(** [df.corr()] is Pearson's coefficient, column against column.  This is
    the coefficient in exact arithmetic: it needs a square root, so it is
    stated over the reals, the columns being injected from [Z] and [Q].
    The float64 computation is [stats64] below. *)
Module stats.

Local Open Scope R_scope.

Definition total (l : list R) : R := fold_right Rplus 0 l.

Definition average (l : list R) : R := total l / INR (List.length l).

(** The deviations of the values from their mean. *)
Definition dev (l : list R) : list R := map (fun x => x - average l) l.

(** Sum of the products of paired deviations. *)
Definition sprod (a b : list R) : R :=
  total (map (fun p => fst p * snd p) (combine a b)).

(** Sum of squared deviations of a column. *)
Definition ssqd (x : list R) : R := sprod (dev x) (dev x).

(** [s.var()], the sample variance; NaN below two observations. *)
Definition var (x : list R) : option R :=
  match x with
  | [] | [_] => None
  | _ => Some (ssqd x / (INR (List.length x) - 1))
  end.

(** One entry of the matrix: the co-deviation over the root of the
    product of the squared deviations, NaN when that divisor is 0. *)
Definition corr_pair (x y : list R) : option R :=
  let divisor := sqrt (ssqd x * ssqd y) in
  if Req_dec_T divisor 0 then None
  else Some (sprod (dev x) (dev y) / divisor).

(** [df.corr()]: row [i], column [j] holds the entry of columns [i], [j]. *)
Definition corr (cols : list (list R)) : list (list (option R)) :=
  map (fun x => map (fun y => corr_pair x y) cols) cols.

End stats.

(** Library behaviour, not code of [app.py]: [DataFrame.corr()] on float64
    columns, as pandas computes an entry.  One pass over the paired
    values keeps the count, the two running means, the two sums of
    squared deviations and the sum of co-deviations; the entry is the
    last over the root of the product of the other two, clipped to
    [-1, 1], and NaN when that divisor is 0.  Every operation rounds, and
    overflows to infinity, as binary64 does. *)
Module stats64.

Import PrimFloat.
Local Open Scope float_scope.

Record Moments : Type := mkMoments {
  nobs : float;
  meanx : float;
  meany : float;
  ssqdm_x : float;
  ssqdm_y : float;
  covxy : float
}.

Definition observe (m : Moments) (v : float * float) : Moments :=
  let n := nobs m + 1 in
  let dx := fst v - meanx m in
  let dy := snd v - meany m in
  let mx := meanx m + 1 / n * dx in
  let my := meany m + 1 / n * dy in
  mkMoments n mx my
            (ssqdm_x m + (fst v - mx) * dx)
            (ssqdm_y m + (snd v - my) * dy)
            (covxy m + (fst v - mx) * dy).

Definition clip (v : float) : float :=
  if 1 <? v then 1 else if v <? -1 then -1 else v.

Definition corr_pair (x y : list float) : float :=
  let m := fold_left observe (combine x y) (mkMoments 0 0 0 0 0 0) in
  if nobs m <? 1 then nan
  else
    let divisor := sqrt (ssqdm_x m * ssqdm_y m) in
    if divisor =? 0 then nan else clip (covxy m / divisor).

(** [s.var()] on a float64 column: the squared deviations from the mean
    over the count less one; NaN below two observations. *)
Definition var (x : list float) : float :=
  let count := fold_left (fun n _ => n + 1) x 0 in
  let avg := fold_left add x 0 / count in
  let sqr := fold_left (fun a v => a + (v - avg) * (v - avg)) x 0 in
  if count <? 2 then nan else sqr / (count - 1).


End stats64.

(** [filtered_df.select_dtypes(include=["float64", "int64"])]: the numeric
    columns, in the order of the table. *)
Definition numeric_names : list string :=
  ["ano"; "investimento_ia_usd_milhoes"; "crescimento_lucro_%";
   "nota_inovacao"].

Definition numeric_cols (filtered_df : DataFrame) : list (list R) :=
  [ map IZR (pd.col ano filtered_df);
    map Q2R (pd.col investimento_ia_usd_milhoes filtered_df);
    map Q2R (pd.col crescimento_lucro filtered_df);
    map Q2R (pd.col nota_inovacao filtered_df) ].

(** Entry [(i, j)] of the matrix shown on the trends page; out of the
    matrix it reads as NaN. *)
Definition corr_entry (filtered_df : DataFrame) (i j : nat) : option R :=
  nth j (nth i (stats.corr (numeric_cols filtered_df)) []) None.

(** ** Figures *)

Inductive Trace : Type :=
| Scatter (name : string) (x : list Z) (y : list Q)
| Bar (name : string) (x : list Z) (y : list Q)
| BarH (x : list Q) (y : list string)
| Pie (labels : list string) (values : list Q)
| Markers (name : string) (x y size : list Q)
| Heatmap (names : list string) (z : list (list (option R)))
| SecondaryY (t : Trace).

(** A figure: its traces and the layout properties set on it so far.
    Labels, colours and sizes given at construction are presentation only
    and are left out. *)
Record Figure : Type := mkFigure {
  data : list Trace;
  layout : list (string * string)
}.

Module px.

(** [px.line(table, x=..., y=...)]. *)
Definition line (table : list (Z * Q)) : Figure :=
  mkFigure [Scatter "" (map fst table) (map snd table)] [].

(** [px.line(table, x="ano", y=..., color="setor")]: one line per sector,
    the sectors in order of first appearance. *)
Definition line_by (table : list ((string * Z) * Q)) : Figure :=
  mkFigure
    (map (fun s =>
            let rows := filter (fun r => keq (fst (fst r)) s) table in
            Scatter s (map (fun r => snd (fst r)) rows) (map snd rows))
         (pd.unique (map (fun r => fst (fst r)) table)))
    [].

(** [px.bar(table, x=..., y=..., orientation="h")]. *)
Definition bar_h (x : list Q) (y : list string) : Figure :=
  mkFigure [BarH x y] [].

(** [px.pie(table, names=..., values=...)]: the chart receives the two
    columns as they are. *)
Definition pie (names : list string) (values : list Q) : Figure :=
  mkFigure [Pie names values] [].

(** Library behaviour, not code of [app.py]: the slices plotly.js draws
    for a pie trace.  The values are added up label by label, the labels
    in order of first appearance; a label whose sum is negative gets no
    slice; the slices are drawn largest first. *)
Definition pie_slices (t : Trace) : list (string * Q) :=
  match t with
  | Pie labels values =>
      sort (fun a b => Qle_bool (snd b) (snd a))
        (filter (fun slice => Qle_bool 0 (snd slice))
           (map (fun l =>
                   (l, pd.sum (pd.getitem values
                                 (map (fun l' => keq l' l) labels))))
                (pd.unique labels)))
  | _ => []
  end.

(** [px.scatter(df, x=..., y=..., size="nota_inovacao", color="empresa")]:
    one group of markers per company.  A marker size must not be
    negative: on a negative score the call raises [ValueError], which is
    [None] here. *)
Definition scatter (df : DataFrame) : option Figure :=
  if forallb (fun r => Qle_bool 0 (nota_inovacao r)) df then
    Some
      (mkFigure
         (map (fun c =>
                 let rows := filter (fun r => keq (empresa r) c) df in
                 Markers c (pd.col investimento_ia_usd_milhoes rows)
                           (pd.col crescimento_lucro rows)
                           (pd.col nota_inovacao rows))
              (pd.unique (pd.col empresa df)))
         [])
  else None.

(** [px.imshow(corr, ...)]: the matrix goes into the heatmap as it is. *)
Definition imshow (names : list string) (z : list (list (option R))) : Figure :=
  mkFigure [Heatmap names z] [].

End px.

(** ** Objects, the screen and the script monad *)

(** A table of counts, as [value_counts().reset_index()] returns it: two
    named columns, the values and their numbers of occurrences. *)
Record CountTable : Type := mkCountTable {
  columns : list string;
  counted : list (string * nat)
}.

(** The objects the script mutates or hands from one of its functions to
    another live on a heap and are named by their address; tables that
    are only read are plain values. *)
Inductive Obj : Type :=
| ODataFrame (d : DataFrame)
| OCountTable (t : CountTable)
| OFigure (f : Figure).

Definition ref : Type := nat.

Inductive MetricValue : Type :=
| Amount (format : string) (v : option Q)
| Count (n : nat).

(** What a Streamlit call puts on the page. *)
Inductive Widget : Type :=
| PageConfig (page_title page_icon page_layout : string)
| Title (s : string)
| Text (s : string)
| Header (s : string)
| Subheader (s : string)
| Markdown (s : string)
| Warning (s : string)
| Image (path : string) (width : Z)
| Multiselect (label : string) (options default : list string)
| Slider (label : string) (min_value max_value : Z) (value : Z * Z)
| Selectbox (label : string) (options : list string)
| Expander (label : string) (body : string)
| Columns (n : nat)
| Column (i : nat) (w : Widget)
| Metric (label : string) (value : MetricValue)
| PlotlyChart (fig : Figure)
| Sidebar (w : Widget).

Record World : Type := mkWorld {
  heap : list Obj;
  screen : list Widget
}.

Inductive Exn : Type :=
| FileNotFoundError
| ValueError
| TypeError
| StreamlitAPIException.

Inductive Result (A : Type) : Type :=
| Ok (a : A) (w : World)
| Raised (e : Exn) (w : World).

Arguments Ok {A} a w.
Arguments Raised {A} e w.

(** A script step: it runs in a world and returns a value or raises. *)
Definition M (A : Type) : Type := World -> Result A.

Definition ret {A : Type} (a : A) : M A := fun w => Ok a w.

Definition bind {A B : Type} (m : M A) (k : A -> M B) : M B :=
  fun w =>
    match m w with
    | Ok a w' => k a w'
    | Raised e w' => Raised e w'
    end.

Definition raise {A : Type} (e : Exn) : M A := fun w => Raised e w.

Notation "x <- m ;; k" := (bind m (fun x => k))
  (at level 61, m at next level, right associativity).
Notation "m ;;; k" := (bind m (fun _ => k))
  (at level 61, right associativity).

(** The world a step ends in, whether it returned or raised. *)
Definition world_of {A : Type} (r : Result A) : World :=
  match r with Ok _ w => w | Raised _ w => w end.

(** Heap access. *)
Definition alloc (o : Obj) : M ref :=
  fun w => Ok (List.length (heap w)) (mkWorld (heap w ++ [o]) (screen w)).

Fixpoint update (r : ref) (o : Obj) (h : list Obj) : list Obj :=
  match h, r with
  | [], _ => []
  | _ :: h', O => o :: h'
  | x :: h', S r' => x :: update r' o h'
  end.

Definition store (r : ref) (o : Obj) : M unit :=
  fun w => Ok tt (mkWorld (update r o (heap w)) (screen w)).

Definition read_frame (r : ref) : M DataFrame :=
  fun w =>
    match nth_error (heap w) r with
    | Some (ODataFrame d) => Ok d w
    | _ => Raised TypeError w
    end.

Definition read_table (r : ref) : M CountTable :=
  fun w =>
    match nth_error (heap w) r with
    | Some (OCountTable t) => Ok t w
    | _ => Raised TypeError w
    end.

Definition read_figure (r : ref) : M Figure :=
  fun w =>
    match nth_error (heap w) r with
    | Some (OFigure f) => Ok f w
    | _ => Raised TypeError w
    end.

(** A Streamlit call appends to the page. *)
Definition emit (x : Widget) : M unit :=
  fun w => Ok tt (mkWorld (heap w) (screen w ++ [x])).

(** The person at the controls: what each input widget returns, given its
    label and what it offers. *)
Record User : Type := mkUser {
  choose_multiselect : string -> list string -> list string -> list string;
  choose_slider : string -> Z -> Z -> Z * Z -> Z * Z;
  choose_selectbox : string -> list string -> option string
}.

(** What Streamlit guarantees of the values its widgets return, when the
    widget is set up with a default among its options and an initial
    range inside its bounds. *)
Definition streamlit_user (u : User) : Prop :=
  (forall label options default x,
      incl default options ->
      In x (choose_multiselect u label options default) -> In x options)
  /\ (forall label lo hi value,
         lo <= fst value <= snd value -> snd value <= hi ->
         lo <= fst (choose_slider u label lo hi value)
            <= snd (choose_slider u label lo hi value)
         /\ snd (choose_slider u label lo hi value) <= hi)
  /\ (forall label options,
         match choose_selectbox u label options with
         | Some x => In x options
         | None => options = []
         end).

(** The user who leaves every control at its default. *)
Definition default_user : User :=
  mkUser (fun _ _ default => default)
         (fun _ _ _ value => value)
         (fun _ options => hd_error options).

Module st.

Definition sidebar_multiselect (u : User) (label : string)
    (options default : list string) : M (list string) :=
  emit (Sidebar (Multiselect label options default)) ;;;
  ret (choose_multiselect u label options default).

(** [st.sidebar.slider]: the lower bound must be less than the upper
    bound, otherwise the call raises and draws nothing. *)
Definition sidebar_slider (u : User) (label : string)
    (min_value max_value : Z) (value : Z * Z) : M (Z * Z) :=
  if min_value <? max_value then
    emit (Sidebar (Slider label min_value max_value value)) ;;;
    ret (choose_slider u label min_value max_value value)
  else raise StreamlitAPIException.

Definition sidebar_selectbox (u : User) (label : string)
    (options : list string) : M (option string) :=
  emit (Sidebar (Selectbox label options)) ;;;
  ret (choose_selectbox u label options).

Definition selectbox (u : User) (label : string) (options : list string)
    : M (option string) :=
  emit (Selectbox label options) ;;;
  ret (choose_selectbox u label options).

(** [st.plotly_chart(fig)] shows the figure as it is at the call. *)
Definition plotly_chart (fig : ref) : M unit :=
  f <- read_figure fig ;;
  emit (PlotlyChart f).

End st.

(** Figure objects and their mutators. *)
Definition new_figure (f : Figure) : M ref := alloc (OFigure f).

Definition add_trace (fig : ref) (t : Trace) : M unit :=
  f <- read_figure fig ;;
  store fig (OFigure (mkFigure (data f ++ [t]) (layout f))).

(** [fig.update_layout(...)], [fig.update_traces(...)] and
    [fig.update_yaxes(...)] set properties of the figure in place. *)
Definition update_layout (fig : ref) (props : list (string * string))
    : M unit :=
  f <- read_figure fig ;;
  store fig (OFigure (mkFigure (data f) (layout f ++ props))).

Definition update_traces (fig : ref) (props : list (string * string))
    : M unit :=
  update_layout fig props.

Definition update_yaxes (fig : ref) (title_text : string)
    (secondary_y : bool) : M unit :=
  update_layout fig
    [((if secondary_y then "yaxis2.title" else "yaxis.title"), title_text)].

(** [table.columns = names] renames the columns in place. *)
Definition set_columns (table : ref) (names : list string) : M unit :=
  t <- read_table table ;;
  store table (OCountTable (mkCountTable names (counted t))).

(** [s.value_counts().reset_index()] as a new object. *)
Definition value_counts_obj (name : string) (s : pd.Series string) : M ref :=
  alloc (OCountTable (mkCountTable [name; "count"] (pd.value_counts s))).

(** [int(x)] of a value that may be NaN. *)
Definition int (x : option Z) : M Z :=
  match x with
  | Some z => ret z
  | None => raise ValueError
  end.

(** The result of a library call that may have raised [ValueError]. *)
Definition checked {A : Type} (x : option A) : M A :=
  match x with
  | Some a => ret a
  | None => raise ValueError
  end.

(** [str(x)] of a value that may be [None]. *)
Definition str (x : option string) : string :=
  match x with
  | Some s => s
  | None => "None"
  end.

(** A column of a count table, looked up by its name. *)
Definition table_values (t : CountTable) (name : string)
    : M (list string) :=
  match columns t with
  | c :: _ => if String.eqb c name then ret (map fst (counted t))
              else raise ValueError
  | [] => raise ValueError
  end.

Definition table_counts (t : CountTable) (name : string) : M (list Q) :=
  match columns t with
  | _ :: c :: _ =>
      if String.eqb c name
      then ret (map (fun p => inject_Z (Z.of_nat (snd p))) (counted t))
      else raise ValueError
  | _ => raise ValueError
  end.

(** ** The script *)

(** [load_data]: the table read from the file; [disk] is the content of
    [data/avanco_ia_empresas.csv], [None] when it cannot be read.  One run
    of the script is modelled, so the cache in front of the read is not
    represented. *)
Definition load_data (disk : option DataFrame) : M ref :=
  match disk with
  | Some d => alloc (ODataFrame d)
  | None => raise FileNotFoundError
  end.

(** [filter_data] as [main] calls it: on the object [df], returning a new
    object. *)
Definition filter_data_obj (df : ref) (countries sectors : list string)
    (year_range : Z * Z) : M ref :=
  d <- read_frame df ;;
  alloc (ODataFrame (filter_data d countries sectors year_range)).

Definition configure_page : M unit :=
  emit (PageConfig "Avanço da IA nas Empresas" ":bar_chart:" "wide") ;;;
  emit (Title "Avanço da Inteligência Artificial nas Empresas (2015–2024)") ;;;
  emit (Text "Autores: Flamarion Fagundes, Lucas Fetter e Vitor Edson").

Definition pages : list string :=
  ["Visão Geral"; "Análise por Empresa"; "Análise por Setor";
   "Tendências Temporais"].

Definition render_sidebar_filters (u : User) (df : ref)
    : M (list string * list string * (Z * Z) * option string) :=
  d <- read_frame df ;;
  emit (Sidebar (Image "assets/logo-faccat.png" 120)) ;;;
  emit (Sidebar (Header "Filtros")) ;;;
  selected_countries <-
    st.sidebar_multiselect u "Selecione os países:"
      (pd.unique (pd.col pais_sede d)) (pd.unique (pd.col pais_sede d)) ;;
  selected_sectors <-
    st.sidebar_multiselect u "Selecione os setores:"
      (pd.unique (pd.col setor d)) (pd.unique (pd.col setor d)) ;;
  min_value <- int (pd.min (pd.col ano d)) ;;
  max_value <- int (pd.max (pd.col ano d)) ;;
  selected_years <-
    st.sidebar_slider u "Selecione o intervalo de anos:"
      min_value max_value (min_value, max_value) ;;
  selected_page <- st.sidebar_selectbox u "Navegação" pages ;;
  ret (selected_countries, selected_sectors, selected_years, selected_page).

Definition render_sidebar_help : M unit :=
  emit (Sidebar (Markdown "---")) ;;;
  emit (Sidebar (Header "Ajuda e Documentação")) ;;;
  emit (Sidebar (Expander "Sobre o Dashboard"
    "Este dashboard apresenta a evolução do uso da IA por empresas globais e seu impacto nos negócios.")) ;;;
  emit (Sidebar (Expander "Como funcionam os filtros"
    "- **Países**: filtra empresas por país de sede - **Setores**: filtra empresas por setor econômico - **Intervalo de anos**: limita os dados ao período selecionado")).

Definition render_overview_page (filtered_df : ref) : M unit :=
  fdf <- read_frame filtered_df ;;
  emit (Header "Visão Geral dos Investimentos em IA") ;;;
  emit (Columns 3) ;;;
  emit (Column 0 (Metric "Total Investido (USD milhões)"
                    (Amount "${:,.2f}" (Some (total_investido fdf))))) ;;;
  emit (Column 1 (Metric "Número de Empresas"
                    (Count (numero_empresas fdf)))) ;;;
  emit (Column 2 (Metric "Crescimento Médio de Lucro"
                    (Amount "{:.2f}%" (crescimento_medio fdf)))) ;;;
  emit (Markdown "---") ;;;
  emit (Subheader "Investimento Total por Ano") ;;;
  fig1 <- new_figure (px.line (investment_by_year fdf)) ;;
  update_traces fig1 [("line.width", "4")] ;;;
  update_layout fig1 [("hovermode", "x unified")] ;;;
  st.plotly_chart fig1 ;;;
  emit (Subheader "Top 10 Empresas por Investimento Total") ;;;
  fig2 <- new_figure (px.bar_h (map snd (top_companies fdf))
                               (map fst (top_companies fdf))) ;;
  st.plotly_chart fig2 ;;;
  emit (Subheader "Distribuição de Investimentos por Setor") ;;;
  fig3 <- new_figure (px.pie (pd.col setor fdf)
                             (pd.col investimento_ia_usd_milhoes fdf)) ;;
  st.plotly_chart fig3.

Definition render_company_page (u : User) (filtered_df : ref) : M unit :=
  fdf <- read_frame filtered_df ;;
  emit (Header "Análise Detalhada por Empresa") ;;;
  selected_company <-
    st.selectbox u "Selecione uma empresa:" (pd.unique (pd.col empresa fdf)) ;;
  let df_company :=
    pd.getitem fdf (pd.eq_ (pd.col empresa fdf) selected_company) in
  if pd.empty df_company then
    emit (Warning
      "Nenhum dado disponível para a empresa selecionada com os filtros atuais.")
  else
    emit (Columns 2) ;;;
    emit (Column 0 (Metric "Investimento Médio Anual"
       (Amount "${:,.2f} milhões"
          (pd.mean (pd.col investimento_ia_usd_milhoes df_company))))) ;;;
    emit (Column 1 (Metric "Crescimento Médio de Lucro"
       (Amount "{:.2f}%" (pd.mean (pd.col crescimento_lucro df_company))))) ;;;
    emit (Markdown "---") ;;;
    emit (Subheader ("Evolução do Investimento e Crescimento de Lucro - "
                     ++ str selected_company)) ;;;
    fig <- new_figure (mkFigure [] []) ;;
    add_trace fig
      (Scatter "Investimento (USD milhões)" (pd.col ano df_company)
               (pd.col investimento_ia_usd_milhoes df_company)) ;;;
    add_trace fig
      (SecondaryY (Bar "Crescimento de Lucro (%)" (pd.col ano df_company)
                       (pd.col crescimento_lucro df_company))) ;;;
    update_layout fig [("xaxis_title", "Ano"); ("hovermode", "x unified")] ;;;
    update_yaxes fig "Investimento (USD milhões)" false ;;;
    update_yaxes fig "Crescimento de Lucro (%)" true ;;;
    st.plotly_chart fig ;;;
    emit (Subheader ("Principais Usos de IA - " ++ str selected_company)) ;;;
    usage_counts <-
      value_counts_obj "principais_usos_ia"
        (pd.col principais_usos_ia df_company) ;;
    set_columns usage_counts ["Uso de IA"; "Ocorrências"] ;;;
    t <- read_table usage_counts ;;
    x <- table_counts t "Ocorrências" ;;
    y <- table_values t "Uso de IA" ;;
    fig_usage <- new_figure (px.bar_h x y) ;;
    st.plotly_chart fig_usage.

Definition render_sector_page (u : User) (filtered_df : ref) : M unit :=
  fdf <- read_frame filtered_df ;;
  emit (Header "Análise por Setor Econômico") ;;;
  selected_sector <-
    st.selectbox u "Selecione um setor:" (pd.unique (pd.col setor fdf)) ;;
  let df_sector :=
    pd.getitem fdf (pd.eq_ (pd.col setor fdf) selected_sector) in
  if pd.empty df_sector then
    emit (Warning
      "Nenhum dado disponível para o setor selecionado com os filtros atuais.")
  else
    emit (Columns 3) ;;;
    emit (Column 0 (Metric "Total Investido"
       (Amount "${:,.2f} milhões"
          (Some (pd.sum (pd.col investimento_ia_usd_milhoes df_sector)))))) ;;;
    emit (Column 1 (Metric "Empresas no Setor"
       (Count (pd.nunique (pd.col empresa df_sector))))) ;;;
    emit (Column 2 (Metric "Nota Média de Inovação"
       (Amount "{:.1f}" (pd.mean (pd.col nota_inovacao df_sector))))) ;;;
    emit (Markdown "---") ;;;
    emit (Subheader ("Comparação entre Empresas do Setor "
                     ++ str selected_sector)) ;;;
    scatter <- checked (px.scatter df_sector) ;;
    fig <- new_figure scatter ;;
    st.plotly_chart fig ;;;
    emit (Subheader ("Distribuição do Impacto Operacional no Setor "
                     ++ str selected_sector)) ;;;
    impact_counts <-
      value_counts_obj "impacto_operacional"
        (pd.col impacto_operacional df_sector) ;;
    set_columns impact_counts ["Impacto"; "Quantidade"] ;;;
    t <- read_table impact_counts ;;
    names <- table_values t "Impacto" ;;
    values <- table_counts t "Quantidade" ;;
    fig_pie <- new_figure (px.pie names values) ;;
    st.plotly_chart fig_pie.

Definition render_trends_page (filtered_df : ref) : M unit :=
  fdf <- read_frame filtered_df ;;
  emit (Header "Tendências Temporais dos Investimentos em IA") ;;;
  emit (Subheader "Evolução dos Investimentos por Setor") ;;;
  let df_grouped :=
    pd.groupby_sum (combine (pd.col setor fdf) (pd.col ano fdf))
                   (pd.col investimento_ia_usd_milhoes fdf) in
  fig_line <- new_figure (px.line_by df_grouped) ;;
  st.plotly_chart fig_line ;;;
  emit (Subheader "Correlação entre Métricas") ;;;
  let corr := stats.corr (numeric_cols fdf) in
  fig_heatmap <- new_figure (px.imshow numeric_names corr) ;;
  st.plotly_chart fig_heatmap.

Definition page_is (page : option string) (name : string) : bool :=
  match page with
  | Some p => String.eqb p name
  | None => false
  end.

Definition main (u : User) (disk : option DataFrame) : M unit :=
  configure_page ;;;
  df <- load_data disk ;;
  sel <- render_sidebar_filters u df ;;
  let '(countries, sectors, year_range, page) := sel in
  render_sidebar_help ;;;
  filtered_df <- filter_data_obj df countries sectors year_range ;;
  if page_is page "Visão Geral" then render_overview_page filtered_df
  else if page_is page "Análise por Empresa"
       then render_company_page u filtered_df
  else if page_is page "Análise por Setor"
       then render_sector_page u filtered_df
  else if page_is page "Tendências Temporais"
       then render_trends_page filtered_df
  else ret tt.

(** The world before the script runs. *)
Definition blank : World := mkWorld [] [].

(** ** Notions used by the statements *)

(** [l1] is [l2] with some elements left out, the others in place. *)
Inductive subsequence {A : Type} : list A -> list A -> Prop :=
| sub_nil : subsequence [] []
| sub_keep (x : A) (l1 l2 : list A) :
    subsequence l1 l2 -> subsequence (x :: l1) (x :: l2)
| sub_drop (x : A) (l1 l2 : list A) :
    subsequence l1 l2 -> subsequence l1 (x :: l2).

(** The object at an address of a world. *)
Definition at_ (w : World) (r : ref) : option Obj := nth_error (heap w) r.

(** A step leaves the first [n] objects of the heap as they are. *)
Definition frames {A : Type} (n : nat) (m : M A) : Prop :=
  forall w, (n <= List.length (heap w))%nat ->
    (n <= List.length (heap (world_of (m w))))%nat
    /\ firstn n (heap (world_of (m w))) = firstn n (heap w).

(** The same, for a step that returns an address: the address is new. *)
Definition frames_new (n : nat) (m : M ref) : Prop :=
  frames n m
  /\ forall w r w', (n <= List.length (heap w))%nat ->
       m w = Ok r w' -> (n <= r)%nat.

(** Widgets that show a number or a chart. *)
Fixpoint metric_or_chart (x : Widget) : bool :=
  match x with
  | Metric _ _ | PlotlyChart _ => true
  | Column _ x' | Sidebar x' => metric_or_chart x'
  | _ => false
  end.

(** What a page shows when it has nothing to show: the notice, and no
    number and no chart. *)
Definition no_data_view (notice : string) (shown : list Widget) : Prop :=
  In (Warning notice) shown
  /\ forallb (fun x => negb (metric_or_chart x)) shown = true.

(** The two records of the worked example of the specification; the
    fields the example leaves open are arguments. *)
Definition registro_A (pais : string) (nota : Q) (uso impacto : string)
    : Registro :=
  mkRegistro "A" pais "Finance" 2020 (10#1) (5#1) nota uso impacto.

Definition registro_B (pais : string) (nota : Q) (uso impacto : string)
    : Registro :=
  mkRegistro "B" pais "Finance" 2021 (20#1) (-2#1) nota uso impacto.

(** A small table used to instantiate the statements. *)
Definition amostra : DataFrame :=
  [ registro_A "Brasil" (7#1) "Chatbots" "Alto";
    registro_B "Canada" (8#1) "Visao" "Baixo";
    mkRegistro "C" "Brasil" "Saude" 2019 (20#1) (1#1) (6#1) "Chatbots" "Alto";
    registro_A "Brasil" (7#1) "Chatbots" "Alto" ].

(** The values of a selection that are also in another one. *)
Definition both (l1 l2 : list string) : list string :=
  filter (fun x => existsb (String.eqb x) l2) l1.

(** A step returns normally in a world. *)
Definition returns {A : Type} (m : M A) (w : World) : Prop :=
  exists a w', m w = Ok a w'.

(** A table of eleven companies, one row each, used to instantiate the
    statements about the ranking. *)
Definition onze_empresas : DataFrame :=
  map (fun p => mkRegistro (fst p) "Brasil" "Finance" 2020
                           (inject_Z (snd p)) (1 # 1) (5 # 1) "Chatbots" "Alto")
      [ ("E01", 1); ("E02", 2); ("E03", 3); ("E04", 4); ("E05", 5);
        ("E06", 6); ("E07", 7); ("E08", 8); ("E09", 9); ("E10", 10);
        ("E11", 11) ].

(** A table with a negative investment: 15 in one sector, -3/2 in
    another. *)
Definition tabela_com_negativo : DataFrame :=
  [ mkRegistro "T" "Brasil" "tech" 2020 (15 # 1) (1 # 1) (5 # 1)
               "Chatbots" "Alto";
    mkRegistro "G" "Brasil" "agro" 2021 (-3 # 2) (1 # 1) (5 # 1)
               "Chatbots" "Alto" ].

(** A table with a negative innovation score. *)
Definition tabela_com_nota_negativa : DataFrame :=
  [ mkRegistro "N" "Brasil" "Finance" 2020 (10 # 1) (1 # 1) (-1 # 1)
               "Chatbots" "Alto";
    mkRegistro "P" "Brasil" "Finance" 2021 (20 # 1) (1 # 1) (5 # 1)
               "Chatbots" "Alto" ].

(** ** Facts about lists and keys *)

#[export] Instance string_KeyOk : KeyOk string.
Proof.
  split.
  - intros x y. apply String.eqb_eq.
  - intros x y. apply String.leb_total.
Qed.

#[export] Instance Z_KeyOk : KeyOk Z.
Proof.
  split.
  - intros x y. apply Z.eqb_eq.
  - intros x y. simpl. rewrite !Z.leb_le. lia.
Qed.

Lemma existsb_eqb_In (x : string) (l : list string) :
  existsb (String.eqb x) l = true <-> In x l.
Proof.
  rewrite existsb_exists. split.
  - intros [y [Hy Heq]]. apply String.eqb_eq in Heq. now subst.
  - intros H. exists x. split; [assumption | apply String.eqb_refl].
Qed.

Lemma existsb_keq_In {K : Type} `{KeyOk K} (x : K) (l : list K) :
  existsb (keq x) l = true <-> In x l.
Proof.
  rewrite existsb_exists. split.
  - intros [y [Hy Heq]]. apply keq_spec in Heq. now subst.
  - intros Hx. exists x. split; [assumption | now apply keq_spec].
Qed.

Lemma getitem_map_filter {A : Type} (f : A -> bool) (l : list A) :
  pd.getitem l (map f l) = filter f l.
Proof.
  induction l as [|x l IH]; simpl; [reflexivity|].
  rewrite IH. reflexivity.
Qed.

Lemma subsequence_nil {A : Type} (l : list A) : subsequence [] l.
Proof. induction l; constructor; assumption. Qed.

Lemma getitem_subsequence {A : Type} (l : list A) (mask : list bool) :
  subsequence (pd.getitem l mask) l.
Proof.
  revert mask. induction l as [|x l IH]; intros mask; simpl.
  - constructor.
  - destruct mask as [|b mask].
    + apply subsequence_nil.
    + destruct b; constructor; apply IH.
Qed.

Lemma subsequence_In {A : Type} (l1 l2 : list A) :
  subsequence l1 l2 -> forall x, In x l1 -> In x l2.
Proof.
  induction 1; simpl; intros y Hy; auto.
  destruct Hy; auto.
Qed.

Lemma filter_all {A : Type} (f : A -> bool) (l : list A) :
  (forall x, In x l -> f x = true) -> filter f l = l.
Proof.
  induction l as [|x l IH]; simpl; intros Hall; [reflexivity|].
  rewrite (Hall x (or_introl eq_refl)). f_equal. apply IH. auto.
Qed.

Lemma filter_none {A : Type} (f : A -> bool) (l : list A) :
  (forall x, In x l -> f x = false) -> filter f l = [].
Proof.
  induction l as [|x l IH]; simpl; intros Hall; [reflexivity|].
  rewrite (Hall x (or_introl eq_refl)). apply IH. auto.
Qed.

Lemma filter_twice {A : Type} (f : A -> bool) (l : list A) :
  filter f (filter f l) = filter f l.
Proof.
  apply filter_all. intros x Hx. apply filter_In in Hx. tauto.
Qed.

(** [unique] keeps exactly the values of the Series, each once. *)
Lemma unique_from_In {K : Type} `{KeyOk K} (s seen : list K) (x : K) :
  In x (pd.unique_from seen s) <-> In x s /\ ~ In x seen.
Proof.
  revert seen. induction s as [|y s IH]; intros seen; simpl.
  - tauto.
  - destruct (existsb (keq y) seen) eqn:E.
    + apply existsb_keq_In in E. rewrite IH. split.
      * tauto.
      * intros [[-> | Hx] Hn]; [contradiction | tauto].
    + assert (Hy : ~ In y seen).
      { intros Hin. apply existsb_keq_In in Hin. congruence. }
      simpl. rewrite IH. simpl. split.
      * intros [-> | [Hx Hn]]; tauto.
      * intros [[-> | Hx] Hn]; [tauto|].
        destruct (keq y x) eqn:Eyx.
        -- apply keq_spec in Eyx. tauto.
        -- right. split; [assumption|]. intros [-> | Hin]; [|tauto].
           assert (keq x x = true) by now apply keq_spec. congruence.
Qed.

Lemma unique_In {K : Type} `{KeyOk K} (s : list K) (x : K) :
  In x (pd.unique s) <-> In x s.
Proof.
  unfold pd.unique. rewrite unique_from_In. simpl. tauto.
Qed.

Lemma unique_from_NoDup {K : Type} `{KeyOk K} (s seen : list K) :
  NoDup (pd.unique_from seen s).
Proof.
  revert seen. induction s as [|y s IH]; intros seen; simpl.
  - constructor.
  - destruct (existsb (keq y) seen); [apply IH|].
    constructor; [|apply IH].
    rewrite unique_from_In. simpl. tauto.
Qed.

Lemma unique_NoDup {K : Type} `{KeyOk K} (s : list K) : NoDup (pd.unique s).
Proof. apply unique_from_NoDup. Qed.

(** The elements of [unique] come from the Series, whatever the key. *)
Lemma unique_from_incl {K : Type} `{Key K} (s seen : list K) (x : K) :
  In x (pd.unique_from seen s) -> In x s.
Proof.
  revert seen. induction s as [|y s IH]; intros seen; simpl; [tauto|].
  destruct (existsb (keq y) seen); simpl; intros Hx.
  - right. eapply IH, Hx.
  - destruct Hx as [-> | Hx]; [now left | right; eapply IH, Hx].
Qed.

Lemma fold_min_le (l : list Z) (a : Z) :
  fold_left Z.min l a <= a /\ forall x, In x l -> fold_left Z.min l a <= x.
Proof.
  revert a. induction l as [|y l IH]; intros a; simpl.
  - split; [lia | tauto].
  - destruct (IH (Z.min a y)) as [H1 H2]. split; [lia|].
    intros x [-> | Hx]; [lia | auto].
Qed.

Lemma fold_max_ge (l : list Z) (a : Z) :
  a <= fold_left Z.max l a /\ forall x, In x l -> x <= fold_left Z.max l a.
Proof.
  revert a. induction l as [|y l IH]; intros a; simpl.
  - split; [lia | tauto].
  - destruct (IH (Z.max a y)) as [H1 H2]. split; [lia|].
    intros x [-> | Hx]; [lia | auto].
Qed.

Lemma min_lower_bound (s : list Z) (lo : Z) :
  pd.min s = Some lo -> forall x, In x s -> lo <= x.
Proof.
  destruct s as [|a s]; simpl; [discriminate|].
  intros [= <-] x Hx. destruct (fold_min_le s a) as [H1 H2].
  destruct Hx as [<- | Hx]; auto.
Qed.

Lemma max_upper_bound (s : list Z) (hi : Z) :
  pd.max s = Some hi -> forall x, In x s -> x <= hi.
Proof.
  destruct s as [|a s]; simpl; [discriminate|].
  intros [= <-] x Hx. destruct (fold_max_ge s a) as [H1 H2].
  destruct Hx as [<- | Hx]; auto.
Qed.

(** ** The filter as a row predicate *)

Lemma filter_data_filter df countries sectors year_range :
  filter_data df countries sectors year_range
  = filter (keeps countries sectors year_range) df.
Proof.
  unfold filter_data, pd.col, pd.isin, pd.ge, pd.le, pd.and_.
  induction df as [|r df IH]; simpl; [reflexivity|].
  unfold keeps at 1. rewrite IH. reflexivity.
Qed.

Lemma keeps_true countries sectors lo hi r :
  keeps countries sectors (lo, hi) r = true <->
  In (pais_sede r) countries /\ In (setor r) sectors /\ lo <= ano r <= hi.
Proof.
  unfold keeps; simpl.
  rewrite !andb_true_iff, !existsb_eqb_In, Z.geb_le, Z.leb_le. tauto.
Qed.

(** ** Framing: which objects a step can touch *)

Lemma update_length (r : ref) (o : Obj) (h : list Obj) :
  List.length (update r o h) = List.length h.
Proof.
  revert r. induction h as [|x h IH]; intros [|r]; simpl; auto.
Qed.

Lemma update_firstn (n : nat) (r : ref) (o : Obj) (h : list Obj) :
  (n <= r)%nat -> firstn n (update r o h) = firstn n h.
Proof.
  revert n r. induction h as [|x h IH]; intros n [|r] Hn; simpl; auto.
  - assert (n = 0%nat) as -> by lia. reflexivity.
  - destruct n as [|n]; simpl; [reflexivity|]. f_equal. apply IH. lia.
Qed.

Lemma frames_ret {A : Type} (n : nat) (a : A) : frames n (ret a).
Proof. intros w Hw. simpl. auto. Qed.

Lemma frames_raise {A : Type} (n : nat) (e : Exn) : frames n (@raise A e).
Proof. intros w Hw. simpl. auto. Qed.

Lemma frames_bind {A B : Type} (n : nat) (m : M A) (k : A -> M B) :
  frames n m -> (forall a, frames n (k a)) -> frames n (bind m k).
Proof.
  intros Hm Hk w Hw. unfold bind.
  destruct (Hm w Hw) as [Hlen Heq].
  destruct (m w) as [a w' | e w'] eqn:E; simpl in *.
  - destruct (Hk a w' Hlen) as [Hlen' Heq']. split; [assumption|].
    now rewrite Heq'.
  - auto.
Qed.

Lemma frames_bind_new {B : Type} (n : nat) (m : M ref) (k : ref -> M B) :
  frames_new n m -> (forall r, (n <= r)%nat -> frames n (k r)) ->
  frames n (bind m k).
Proof.
  intros [Hm Hnew] Hk w Hw. unfold bind.
  destruct (Hm w Hw) as [Hlen Heq].
  destruct (m w) as [a w' | e w'] eqn:E; simpl in *.
  - destruct (Hk a (Hnew w a w' Hw E) w' Hlen) as [Hlen' Heq'].
    split; [assumption|]. now rewrite Heq'.
  - auto.
Qed.

Lemma frames_emit (n : nat) (x : Widget) : frames n (emit x).
Proof. intros w Hw. simpl. auto. Qed.

Lemma frames_read_frame (n : nat) (r : ref) : frames n (read_frame r).
Proof.
  intros w Hw. unfold read_frame.
  destruct (nth_error (heap w) r) as [[d | t | f] |]; simpl; auto.
Qed.

Lemma frames_read_table (n : nat) (r : ref) : frames n (read_table r).
Proof.
  intros w Hw. unfold read_table.
  destruct (nth_error (heap w) r) as [[d | t | f] |]; simpl; auto.
Qed.

Lemma frames_read_figure (n : nat) (r : ref) : frames n (read_figure r).
Proof.
  intros w Hw. unfold read_figure.
  destruct (nth_error (heap w) r) as [[d | t | f] |]; simpl; auto.
Qed.

Lemma frames_alloc (n : nat) (o : Obj) : frames_new n (alloc o).
Proof.
  split.
  - intros w Hw. simpl. rewrite length_app. split; [lia|].
    rewrite firstn_app. replace (n - List.length (heap w))%nat with 0%nat by lia.
    simpl. apply app_nil_r.
  - intros w r w' Hw [= <- _]. assumption.
Qed.

Lemma frames_store (n : nat) (r : ref) (o : Obj) :
  (n <= r)%nat -> frames n (store r o).
Proof.
  intros Hr w Hw. simpl. rewrite update_length. split; [assumption|].
  now apply update_firstn.
Qed.

Lemma frames_int (n : nat) (x : option Z) : frames n (int x).
Proof. destruct x; [apply frames_ret | apply frames_raise]. Qed.

Lemma frames_table_values (n : nat) (t : CountTable) (name : string) :
  frames n (table_values t name).
Proof.
  unfold table_values. destruct (columns t) as [|c cs].
  - apply frames_raise.
  - destruct (String.eqb c name); [apply frames_ret | apply frames_raise].
Qed.

Lemma frames_checked {A : Type} (n : nat) (x : option A) :
  frames n (checked x).
Proof. destruct x; [apply frames_ret | apply frames_raise]. Qed.

Lemma frames_table_counts (n : nat) (t : CountTable) (name : string) :
  frames n (table_counts t name).
Proof.
  unfold table_counts. destruct (columns t) as [|c0 [|c cs]];
    try apply frames_raise.
  destruct (String.eqb c name); [apply frames_ret | apply frames_raise].
Qed.

Lemma frames_of_new (n : nat) (m : M ref) : frames_new n m -> frames n m.
Proof. intros [Hm _]. exact Hm. Qed.

Create HintDb frame.

#[export] Hint Resolve frames_ret frames_raise frames_emit frames_read_frame
  frames_read_table frames_read_figure frames_alloc frames_store frames_int
  frames_checked frames_table_values frames_table_counts : frame.

(** Decompose a script into its steps: a step that makes an object
    introduces the object's address, known to be new. *)
Ltac frame_steps :=
  repeat first
    [ apply frames_bind_new;
        [ solve [auto with frame] | intros ? ? ]
    | apply frames_bind; [ solve [auto with frame] | intros ? ]
    | solve [auto with frame]
    | apply frames_of_new; solve [auto with frame] ].

Lemma frames_update_layout (n : nat) (fig : ref) props :
  (n <= fig)%nat -> frames n (update_layout fig props).
Proof. intros Hn. unfold update_layout. frame_steps. Qed.

Lemma frames_update_traces (n : nat) (fig : ref) props :
  (n <= fig)%nat -> frames n (update_traces fig props).
Proof. apply frames_update_layout. Qed.

Lemma frames_update_yaxes (n : nat) (fig : ref) title secondary_y :
  (n <= fig)%nat -> frames n (update_yaxes fig title secondary_y).
Proof. apply frames_update_layout. Qed.

Lemma frames_add_trace (n : nat) (fig : ref) (t : Trace) :
  (n <= fig)%nat -> frames n (add_trace fig t).
Proof. intros Hn. unfold add_trace. frame_steps. Qed.

Lemma frames_set_columns (n : nat) (table : ref) names :
  (n <= table)%nat -> frames n (set_columns table names).
Proof. intros Hn. unfold set_columns. frame_steps. Qed.

Lemma frames_new_figure (n : nat) (f : Figure) : frames_new n (new_figure f).
Proof. apply frames_alloc. Qed.

Lemma frames_value_counts_obj (n : nat) name s :
  frames_new n (value_counts_obj name s).
Proof. apply frames_alloc. Qed.

Lemma frames_plotly_chart (n : nat) (fig : ref) : frames n (st.plotly_chart fig).
Proof. unfold st.plotly_chart. frame_steps. Qed.

Lemma frames_selectbox (n : nat) u label options :
  frames n (st.selectbox u label options).
Proof. unfold st.selectbox. frame_steps. Qed.

Lemma frames_sidebar_selectbox (n : nat) u label options :
  frames n (st.sidebar_selectbox u label options).
Proof. unfold st.sidebar_selectbox. frame_steps. Qed.

Lemma frames_sidebar_multiselect (n : nat) u label options default :
  frames n (st.sidebar_multiselect u label options default).
Proof. unfold st.sidebar_multiselect. frame_steps. Qed.

Lemma frames_sidebar_slider (n : nat) u label lo hi value :
  frames n (st.sidebar_slider u label lo hi value).
Proof.
  unfold st.sidebar_slider. destruct (lo <? hi); frame_steps.
Qed.

#[export] Hint Resolve frames_update_layout frames_update_traces
  frames_update_yaxes frames_add_trace frames_set_columns frames_new_figure
  frames_value_counts_obj frames_plotly_chart frames_selectbox
  frames_sidebar_selectbox frames_sidebar_multiselect frames_sidebar_slider
  : frame.

Lemma frames_load_data (n : nat) disk : frames_new n (load_data disk).
Proof.
  destruct disk as [d|]; simpl.
  - apply frames_alloc.
  - split; [apply frames_raise | discriminate].
Qed.

Lemma frames_filter_data_obj (n : nat) df countries sectors year_range :
  frames_new n (filter_data_obj df countries sectors year_range).
Proof.
  split.
  - unfold filter_data_obj. frame_steps.
  - intros w r w' Hw. unfold filter_data_obj, bind, read_frame.
    destruct (nth_error (heap w) df) as [[d | t | f] |]; try discriminate.
    intros [= <- _]. assumption.
Qed.

Lemma frames_configure_page (n : nat) : frames n configure_page.
Proof. unfold configure_page. frame_steps. Qed.

Lemma frames_render_sidebar_filters (n : nat) u df :
  frames n (render_sidebar_filters u df).
Proof. unfold render_sidebar_filters. frame_steps. Qed.

Lemma frames_render_sidebar_help (n : nat) : frames n render_sidebar_help.
Proof. unfold render_sidebar_help. frame_steps. Qed.

Lemma frames_render_overview_page (n : nat) filtered_df :
  frames n (render_overview_page filtered_df).
Proof. unfold render_overview_page. frame_steps. Qed.

Lemma frames_render_company_page (n : nat) u filtered_df :
  frames n (render_company_page u filtered_df).
Proof.
  unfold render_company_page. frame_steps.
  match goal with |- context [pd.empty ?d] => destruct (pd.empty d) end;
    frame_steps.
Qed.

Lemma frames_render_sector_page (n : nat) u filtered_df :
  frames n (render_sector_page u filtered_df).
Proof.
  unfold render_sector_page. frame_steps.
  match goal with |- context [pd.empty ?d] => destruct (pd.empty d) end;
    frame_steps.
Qed.

Lemma frames_render_trends_page (n : nat) filtered_df :
  frames n (render_trends_page filtered_df).
Proof. unfold render_trends_page. frame_steps. Qed.

#[export] Hint Resolve frames_load_data frames_filter_data_obj
  frames_configure_page frames_render_sidebar_filters
  frames_render_sidebar_help frames_render_overview_page
  frames_render_company_page frames_render_sector_page
  frames_render_trends_page : frame.

Lemma frames_main (n : nat) u disk : frames n (main u disk).
Proof.
  unfold main. frame_steps.
  match goal with a : _ * _ * _ * _ |- _ => destruct a as [[[c s] y] p] end.
  frame_steps.
  destruct (page_is p _); [auto with frame|].
  destruct (page_is p _); [auto with frame|].
  destruct (page_is p _); [auto with frame|].
  destruct (page_is p _); auto with frame.
Qed.

(** ** The filter engine *)

(** C1. Soundness and completeness of the filter: with a year interval
    [lo <= hi], every row of the output of [filter_data] is a row of the
    input whose country is among the selected countries, whose sector is
    among the selected sectors and whose year lies in [[lo, hi]]; and
    every row of the input that meets the three conditions is in the
    output. *)
Theorem filter_data_sound_complete (df : DataFrame)
    (countries sectors : list string) (lo hi : Z) :
  lo <= hi ->
  (forall r, In r (filter_data df countries sectors (lo, hi)) ->
     In r df /\ In (pais_sede r) countries /\ In (setor r) sectors
     /\ lo <= ano r <= hi)
  /\ (forall r, In r df -> In (pais_sede r) countries ->
        In (setor r) sectors -> lo <= ano r <= hi ->
        In r (filter_data df countries sectors (lo, hi))).
Proof.
  intros _. rewrite filter_data_filter. split.
  - intros r Hr. apply filter_In in Hr. destruct Hr as [Hin Hk].
    apply keeps_true in Hk. tauto.
  - intros r Hin Hc Hs Hy. apply filter_In. split; [assumption|].
    apply keeps_true. tauto.
Qed.

Lemma filter_data_sound_complete_witness :
  2019 <= 2020
  /\ (forall r, In r (filter_data amostra ["Brasil"] ["Finance"; "Saude"]
                                  (2019, 2020)) ->
        In r amostra /\ In (pais_sede r) ["Brasil"]
        /\ In (setor r) ["Finance"; "Saude"] /\ 2019 <= ano r <= 2020).
Proof.
  split; [lia|].
  apply (filter_data_sound_complete amostra ["Brasil"] ["Finance"; "Saude"]
           2019 2020).
  lia.
Defined.

(** C2. The identity case: filtering a table with all the countries and
    all the sectors that occur in it and with the interval from its least
    to its greatest year returns the table itself. *)
Theorem filter_data_identity (df : DataFrame) (lo hi : Z) :
  pd.min (pd.col ano df) = Some lo ->
  pd.max (pd.col ano df) = Some hi ->
  filter_data df (pd.unique (pd.col pais_sede df))
                 (pd.unique (pd.col setor df)) (lo, hi) = df.
Proof.
  intros Hlo Hhi. rewrite filter_data_filter. apply filter_all.
  intros r Hr. apply keeps_true. repeat split.
  - apply unique_In. unfold pd.col. now apply in_map.
  - apply unique_In. unfold pd.col. now apply in_map.
  - apply (min_lower_bound _ _ Hlo). unfold pd.col. now apply in_map.
  - apply (max_upper_bound _ _ Hhi). unfold pd.col. now apply in_map.
Qed.

Lemma filter_data_identity_witness :
  filter_data amostra (pd.unique (pd.col pais_sede amostra))
                      (pd.unique (pd.col setor amostra)) (2019, 2021)
  = amostra.
Proof.
  apply (filter_data_identity amostra 2019 2021); reflexivity.
Defined.

(** A table without rows has no least or greatest year, and filters to
    itself whatever the selection. *)
Lemma filter_data_no_rows countries sectors year_range :
  pd.min (pd.col ano []) = None /\ pd.max (pd.col ano []) = None
  /\ filter_data [] countries sectors year_range = [].
Proof. repeat split. Qed.

(** With every control left at its default, on a table that spans more
    than one year, the sidebar hands [main] the selection of the identity
    case. *)
Lemma render_sidebar_filters_default (w : World) (df : ref) (d : DataFrame)
    (lo hi : Z) :
  at_ w df = Some (ODataFrame d) ->
  pd.min (pd.col ano d) = Some lo ->
  pd.max (pd.col ano d) = Some hi ->
  lo < hi ->
  exists w',
    render_sidebar_filters default_user df w
    = Ok (pd.unique (pd.col pais_sede d), pd.unique (pd.col setor d),
          (lo, hi), Some "Visão Geral") w'
    /\ heap w' = heap w.
Proof.
  unfold at_. intros Hat Hlo Hhi Hlt. apply Z.ltb_lt in Hlt. eexists.
  unfold render_sidebar_filters, st.sidebar_slider, bind, read_frame.
  rewrite Hat, Hlo, Hhi. cbn [st.sidebar_multiselect emit bind int ret].
  unfold bind, emit, ret. rewrite Hlt.
  split; reflexivity.
Qed.

(** On a table without rows the year slider cannot be set up: the script
    stops with a [ValueError] once the two multiselects are drawn. *)
Lemma render_sidebar_filters_no_rows (u : User) (w : World) (df : ref) :
  at_ w df = Some (ODataFrame []) ->
  exists w', render_sidebar_filters u df w = Raised ValueError w'.
Proof.
  unfold at_. intros Hat. eexists.
  unfold render_sidebar_filters, bind, read_frame. rewrite Hat. reflexivity.
Qed.

(** C3. An empty selection selects nothing: with no country selected, and
    likewise with no sector selected, [filter_data] returns no row; the
    filter does not read an empty selection as "all". *)
Theorem filter_data_empty_selection (df : DataFrame)
    (countries sectors : list string) (year_range : Z * Z) :
  filter_data df [] sectors year_range = []
  /\ filter_data df countries [] year_range = [].
Proof.
  rewrite !filter_data_filter. split; apply filter_none; intros r _;
    unfold keeps; simpl.
  - reflexivity.
  - now rewrite andb_false_r.
Qed.

(** What [filter_data_obj] does to a world: it reads the table at [df] and
    appends the filtered table, leaving the page as it is. *)
Lemma filter_data_obj_runs (w : World) (df : ref) (d : DataFrame)
    countries sectors year_range :
  at_ w df = Some (ODataFrame d) ->
  filter_data_obj df countries sectors year_range w
  = Ok (List.length (heap w))
       (mkWorld (heap w ++ [ODataFrame (filter_data d countries sectors
                                                    year_range)])
                (screen w)).
Proof.
  unfold at_, filter_data_obj, bind, read_frame. intros ->. reflexivity.
Qed.

(** C4. [filter_data] is idempotent, and its result is a function of its
    arguments alone: filtering the filtered table again with the same
    selection changes nothing, and two calls on equal tables with equal
    selections, in whatever worlds, succeed and return objects holding
    the same table, namely [filter_data] of the arguments. *)
Theorem filter_data_pure_idempotent (d : DataFrame)
    (countries sectors : list string) (year_range : Z * Z) :
  filter_data (filter_data d countries sectors year_range)
              countries sectors year_range
  = filter_data d countries sectors year_range
  /\ forall (w1 w2 : World) (df1 df2 : ref),
       at_ w1 df1 = Some (ODataFrame d) ->
       at_ w2 df2 = Some (ODataFrame d) ->
       exists r1 w1' r2 w2',
         filter_data_obj df1 countries sectors year_range w1 = Ok r1 w1'
         /\ filter_data_obj df2 countries sectors year_range w2 = Ok r2 w2'
         /\ at_ w1' r1
            = Some (ODataFrame (filter_data d countries sectors year_range))
         /\ at_ w2' r2 = at_ w1' r1.
Proof.
  split.
  - rewrite !filter_data_filter. apply filter_twice.
  - intros w1 w2 df1 df2 H1 H2.
    rewrite (filter_data_obj_runs w1 df1 d) by assumption.
    rewrite (filter_data_obj_runs w2 df2 d) by assumption.
    do 4 eexists. repeat split; unfold at_; simpl;
      rewrite !nth_error_app2, !Nat.sub_diag by lia; reflexivity.
Qed.

Lemma filter_data_pure_idempotent_witness :
  exists r1 w1' r2 w2',
    filter_data_obj 0%nat ["Brasil"] ["Saude"] (2015, 2024)
                    (mkWorld [ODataFrame amostra] []) = Ok r1 w1'
    /\ filter_data_obj 1%nat ["Brasil"] ["Saude"] (2015, 2024)
                       (mkWorld [OFigure (mkFigure [] []);
                                 ODataFrame amostra] [Title "x"])
       = Ok r2 w2'
    /\ at_ w1' r1
       = Some (ODataFrame (filter_data amostra ["Brasil"] ["Saude"]
                                       (2015, 2024)))
    /\ at_ w2' r2 = at_ w1' r1.
Proof.
  apply (proj2 (filter_data_pure_idempotent amostra ["Brasil"] ["Saude"]
                  (2015, 2024))); reflexivity.
Defined.

(** ** The table is only read *)

(** A step that frames the whole heap leaves every object it found. *)
Lemma frames_whole_heap {A : Type} (m : M A) (w : World) :
  frames (List.length (heap w)) m ->
  firstn (List.length (heap w)) (heap (world_of (m w))) = heap w.
Proof.
  intros Hm. destruct (Hm w (Nat.le_refl _)) as [_ Heq].
  rewrite Heq. apply firstn_all.
Qed.

Lemma firstn_S_nth_error {A : Type} (n : nat) (l l' : list A) :
  firstn (S n) l = firstn (S n) l' -> nth_error l n = nth_error l' n.
Proof.
  intros Heq.
  assert (Hn : forall k : list A, nth_error (firstn (S n) k) n = nth_error k n).
  { intros k. rewrite nth_error_firstn.
    replace (n <? S n)%nat with true; [reflexivity|].
    symmetry. apply Nat.ltb_lt. lia. }
  rewrite <- (Hn l), <- (Hn l'). now rewrite Heq.
Qed.

(** After [main] has loaded the table, the object it loaded is what it
    was, whichever page is drawn and whether or not a step raises. *)
Lemma main_keeps_dataset (u : User) (d : DataFrame) (w : World) :
  at_ (world_of (main u (Some d) w)) (List.length (heap w))
  = Some (ODataFrame d).
Proof.
  unfold main.
  set (k := fun df : ref => bind (render_sidebar_filters u df) _).
  assert (Hk : forall n df, frames n (k df)).
  { intros n df. unfold k. frame_steps.
    match goal with a : _ * _ * _ * _ |- _ => destruct a as [[[c s] y] p] end.
    frame_steps.
    destruct (page_is p _); [auto with frame|].
    destruct (page_is p _); [auto with frame|].
    destruct (page_is p _); [auto with frame|].
    destruct (page_is p _); auto with frame. }
  unfold bind at 1 2. cbn [configure_page load_data alloc emit bind heap screen].
  set (w1 := mkWorld (heap w ++ [ODataFrame d]) _).
  destruct (Hk (S (List.length (heap w))) (List.length (heap w)) w1)
    as [Hlen Heq].
  { unfold w1. simpl. rewrite length_app. simpl. lia. }
  unfold at_.
  rewrite (firstn_S_nth_error _ _ _ Heq). unfold w1. simpl.
  rewrite nth_error_app2, Nat.sub_diag by lia. reflexivity.
Qed.

(** C10. [filter_data] returns its input with some rows left out: the
    output is a subsequence of the input, so each of its rows is a row of
    the input with every field as it was and the rows keep their order.
    Filtering and the four pages leave every object they find on the heap
    as it is, the table they read included, and when [main] ends the
    table it loaded is the table that was read from the file. *)
Theorem filter_data_frame :
  (forall df countries sectors year_range,
      subsequence (filter_data df countries sectors year_range) df)
  /\ (forall w df countries sectors year_range,
        firstn (List.length (heap w))
          (heap (world_of (filter_data_obj df countries sectors year_range w)))
        = heap w)
  /\ (forall u w filtered_df,
        firstn (List.length (heap w))
          (heap (world_of (render_overview_page filtered_df w))) = heap w
        /\ firstn (List.length (heap w))
             (heap (world_of (render_company_page u filtered_df w))) = heap w
        /\ firstn (List.length (heap w))
             (heap (world_of (render_sector_page u filtered_df w))) = heap w
        /\ firstn (List.length (heap w))
             (heap (world_of (render_trends_page filtered_df w))) = heap w)
  /\ (forall u d w,
        at_ (world_of (main u (Some d) w)) (List.length (heap w))
        = Some (ODataFrame d)).
Proof.
  split; [|split; [|split]].
  - intros. apply getitem_subsequence.
  - intros. apply frames_whole_heap, frames_of_new. auto with frame.
  - intros. repeat split; apply frames_whole_heap; auto with frame.
  - apply main_keeps_dataset.
Qed.

(** ** Drill-down pages without rows *)

(** The rows a drill-down keeps: those whose column equals the choice. *)
Lemma getitem_eq_filter (f : Registro -> string) (sel : option string)
    (fdf : DataFrame) :
  pd.getitem fdf (pd.eq_ (pd.col f fdf) sel)
  = filter (fun r => match sel with
                     | Some c => String.eqb (f r) c
                     | None => false
                     end) fdf.
Proof.
  unfold pd.eq_, pd.col. rewrite map_map. apply getitem_map_filter.
Qed.

Lemma getitem_eq_no_rows (f : Registro -> string) (sel : option string)
    (fdf : DataFrame) :
  (forall r, In r fdf -> Some (f r) <> sel) ->
  pd.getitem fdf (pd.eq_ (pd.col f fdf) sel) = [].
Proof.
  intros Hno. rewrite getitem_eq_filter. apply filter_none.
  intros r Hr. destruct sel as [c|]; [|reflexivity].
  apply String.eqb_neq. intros Heq. apply (Hno r Hr). now rewrite Heq.
Qed.

(** A choice Streamlit can return matches no row only when the filtered
    table has no row at all. *)
Lemma drilldown_no_rows_only_if_empty (u : User) (f : Registro -> string)
    (label : string) (fdf : DataFrame) :
  streamlit_user u ->
  pd.getitem fdf
    (pd.eq_ (pd.col f fdf)
            (choose_selectbox u label (pd.unique (pd.col f fdf)))) = [] ->
  fdf = [].
Proof.
  intros [_ [_ Hsel]] Hempty. specialize (Hsel label (pd.unique (pd.col f fdf))).
  rewrite getitem_eq_filter in Hempty.
  destruct (choose_selectbox u label (pd.unique (pd.col f fdf))) as [c|].
  - apply (proj1 (unique_In _ _)) in Hsel. unfold pd.col in Hsel.
    apply in_map_iff in Hsel. destruct Hsel as [r [Hfr Hr]].
    assert (Hin : In r []).
    { rewrite <- Hempty. apply filter_In. split; [assumption|].
      rewrite Hfr. apply String.eqb_refl. }
    destruct Hin.
  - destruct fdf as [|r fdf]; [reflexivity|]. discriminate.
Qed.

(** C8. A drill-down that matches no row is not an error.  When the
    company chosen on the company page (the sector chosen on the sector
    page) occurs in no row of the filtered table, the page function
    returns normally, having put on the page its header, the selection
    box and the notice that there is no data, and nothing else: no
    number and no chart; the heap is as it was. *)
Theorem drilldown_without_rows (u : User) (w : World) (filtered_df : ref)
    (fdf : DataFrame) :
  at_ w filtered_df = Some (ODataFrame fdf) ->
  ((forall r, In r fdf ->
      Some (empresa r)
      <> choose_selectbox u "Selecione uma empresa:"
                          (pd.unique (pd.col empresa fdf))) ->
   let notice :=
     "Nenhum dado disponível para a empresa selecionada com os filtros atuais."
   in
   let shown :=
     [ Header "Análise Detalhada por Empresa";
       Selectbox "Selecione uma empresa:" (pd.unique (pd.col empresa fdf));
       Warning notice ] in
   render_company_page u filtered_df w
   = Ok tt (mkWorld (heap w) (screen w ++ shown))
   /\ no_data_view notice shown)
  /\ ((forall r, In r fdf ->
         Some (setor r)
         <> choose_selectbox u "Selecione um setor:"
                             (pd.unique (pd.col setor fdf))) ->
      let notice :=
        "Nenhum dado disponível para o setor selecionado com os filtros atuais."
      in
      let shown :=
        [ Header "Análise por Setor Econômico";
          Selectbox "Selecione um setor:" (pd.unique (pd.col setor fdf));
          Warning notice ] in
      render_sector_page u filtered_df w
      = Ok tt (mkWorld (heap w) (screen w ++ shown))
      /\ no_data_view notice shown).
Proof.
  unfold at_. intros Hat. split; intros Hno; cbv zeta.
  - split.
    + unfold render_company_page, bind, read_frame, st.selectbox, bind.
      rewrite Hat. cbn [emit ret heap screen].
      rewrite (getitem_eq_no_rows empresa _ fdf Hno).
      unfold pd.empty, emit. cbn [heap screen].
      rewrite <- !app_assoc. reflexivity.
    + split; [simpl; tauto | reflexivity].
  - split.
    + unfold render_sector_page, bind, read_frame, st.selectbox, bind.
      rewrite Hat. cbn [emit ret heap screen].
      rewrite (getitem_eq_no_rows setor _ fdf Hno).
      unfold pd.empty, emit. cbn [heap screen].
      rewrite <- !app_assoc. reflexivity.
    + split; [simpl; tauto | reflexivity].
Qed.

Lemma drilldown_without_rows_witness :
  render_company_page default_user 0%nat (mkWorld [ODataFrame []] [])
  = Ok tt (mkWorld [ODataFrame []]
       [ Header "Análise Detalhada por Empresa";
         Selectbox "Selecione uma empresa:" [];
         Warning
           "Nenhum dado disponível para a empresa selecionada com os filtros atuais." ])
  /\ render_sector_page default_user 0%nat (mkWorld [ODataFrame []] [])
     = Ok tt (mkWorld [ODataFrame []]
          [ Header "Análise por Setor Econômico";
            Selectbox "Selecione um setor:" [];
            Warning
              "Nenhum dado disponível para o setor selecionado com os filtros atuais." ]).
Proof.
  destruct (drilldown_without_rows default_user (mkWorld [ODataFrame []] [])
              0%nat [] eq_refl) as [Hcompany Hsector].
  split.
  - apply Hcompany. intros r [].
  - apply Hsector. intros r [].
Defined.

(** ** Sorting *)

Section SortFacts.
Context {A : Type} (leb : A -> A -> bool).

Lemma insert_Permutation (x : A) (l : list A) :
  Permutation (insert leb x l) (x :: l).
Proof.
  induction l as [|y l IH]; simpl; [reflexivity|].
  destruct (leb x y); [reflexivity|].
  rewrite IH. apply perm_swap.
Qed.

Lemma sort_Permutation (l : list A) : Permutation (sort leb l) l.
Proof.
  induction l as [|x l IH]; simpl; [reflexivity|].
  rewrite insert_Permutation. now constructor.
Qed.

Lemma sort_In (l : list A) (x : A) : In x (sort leb l) <-> In x l.
Proof.
  split; apply Permutation_in;
    [apply sort_Permutation | symmetry; apply sort_Permutation].
Qed.

Hypothesis leb_total : forall x y, leb x y = true \/ leb y x = true.
Hypothesis leb_trans :
  forall x y z, leb x y = true -> leb y z = true -> leb x z = true.

Lemma insert_sorted (x : A) (l : list A) :
  StronglySorted (fun a b => leb a b = true) l ->
  StronglySorted (fun a b => leb a b = true) (insert leb x l).
Proof.
  induction 1 as [|y l Hl IH Hy]; simpl.
  - repeat constructor.
  - destruct (leb x y) eqn:E.
    + constructor; [now constructor|].
      constructor; [assumption|].
      rewrite Forall_forall in *. intros z Hz. eauto.
    + constructor; [assumption|].
      rewrite Forall_forall in *. intros z Hz.
      apply (Permutation_in _ (insert_Permutation x l)) in Hz.
      destruct Hz as [<- | Hz]; [|auto].
      destruct (leb_total x y) as [Hxy | Hyx]; congruence.
Qed.

Lemma sort_sorted (l : list A) :
  StronglySorted (fun a b => leb a b = true) (sort leb l).
Proof.
  induction l as [|x l IH]; simpl; [constructor|].
  now apply insert_sorted.
Qed.

End SortFacts.

Lemma firstn_StronglySorted {A : Type} (R : A -> A -> Prop) (n : nat)
    (l : list A) :
  StronglySorted R l -> StronglySorted R (firstn n l).
Proof.
  intros Hl. revert n. induction Hl as [|x l Hl IH Hx]; intros [|n]; simpl;
    try constructor.
  - apply IH.
  - rewrite Forall_forall in *. intros y Hy. apply Hx.
    rewrite <- (firstn_skipn n l). apply in_or_app. now left.
Qed.

Lemma firstn_In {A : Type} (n : nat) (l : list A) (x : A) :
  In x (firstn n l) -> In x l.
Proof.
  intros Hx. rewrite <- (firstn_skipn n l). apply in_or_app. now left.
Qed.

Lemma firstn_NoDup {A : Type} (n : nat) (l : list A) :
  NoDup l -> NoDup (firstn n l).
Proof.
  intros Hl. rewrite <- (firstn_skipn n l) in Hl.
  now apply NoDup_app_remove_r in Hl.
Qed.

(** ** Sums *)

Lemma fold_Qplus_acc (l : list Q) (a : Q) :
  (fold_left Qplus l a == a + fold_left Qplus l 0)%Q.
Proof.
  revert a. induction l as [|x l IH]; intros a; simpl.
  - ring.
  - rewrite (IH (a + x)%Q), (IH (0 + x)%Q). ring.
Qed.

Lemma sum_cons (x : Q) (l : list Q) : (pd.sum (x :: l) == x + pd.sum l)%Q.
Proof.
  unfold pd.sum. simpl. rewrite fold_Qplus_acc. ring.
Qed.

Lemma getitem_col_filter {A : Type} (v : Registro -> A)
    (f : Registro -> bool) (df : DataFrame) :
  pd.getitem (pd.col v df) (map f df) = pd.col v (filter f df).
Proof.
  unfold pd.col. induction df as [|r df IH]; simpl; [reflexivity|].
  destruct (f r); simpl; now rewrite IH.
Qed.

(** The values of a group: the rows whose key is the group's key. *)
Lemma group_values {K A : Type} `{Key K} (k : Registro -> K)
    (v : Registro -> A) (df : DataFrame) (key : K) :
  pd.getitem (pd.col v df) (map (fun k' => keq k' key) (pd.col k df))
  = pd.col v (filter (fun r => keq (k r) key) df).
Proof.
  unfold pd.col at 2. rewrite map_map. apply getitem_col_filter.
Qed.

(** Splitting a sum between two classes of rows that do not meet. *)
Lemma sum_filter_split (v : Registro -> Q) (f g : Registro -> bool)
    (df : DataFrame) :
  (forall r, In r df -> f r = true -> g r = false) ->
  (pd.sum (pd.col v (filter (fun r => f r || g r) df))
   == pd.sum (pd.col v (filter f df)) + pd.sum (pd.col v (filter g df)))%Q.
Proof.
  unfold pd.col. induction df as [|r df IH]; intros Hfg.
  - reflexivity.
  - assert (IH' := IH (fun r' Hr' => Hfg r' (or_intror Hr'))).
    specialize (Hfg r (or_introl eq_refl)). simpl.
    destruct (f r) eqn:Ef; simpl.
    + rewrite (Hfg eq_refl). simpl. rewrite !sum_cons, IH'. ring.
    + destruct (g r); simpl; [|exact IH'].
      rewrite !sum_cons, IH'. ring.
Qed.

(** Summing group by group over distinct keys is summing the rows whose
    key is one of them. *)
Lemma sum_by_groups {K : Type} `{KeyOk K} (k : Registro -> K)
    (v : Registro -> Q) (df : DataFrame) (keys : list K) :
  NoDup keys ->
  (pd.sum (map (fun key => pd.sum (pd.col v (filter (fun r => keq (k r) key) df)))
               keys)
   == pd.sum (pd.col v (filter (fun r => existsb (keq (k r)) keys) df)))%Q.
Proof.
  induction 1 as [|key keys Hnotin Hnodup IH].
  - simpl. rewrite (filter_none (fun _ => false)); [reflexivity | reflexivity].
  - cbn [map existsb]. rewrite sum_cons, IH.
    symmetry. apply sum_filter_split.
    intros r _ Hr. apply keq_spec in Hr. subst key.
    destruct (existsb (keq (k r)) keys) eqn:E; [|reflexivity].
    apply existsb_keq_In in E. contradiction.
Qed.

Lemma sum_of_all_groups {K : Type} `{KeyOk K} (k : Registro -> K)
    (v : Registro -> Q) (df : DataFrame) :
  (pd.sum (map (fun key => pd.sum (pd.col v (filter (fun r => keq (k r) key) df)))
               (pd.unique (pd.col k df)))
   == pd.sum (pd.col v df))%Q.
Proof.
  rewrite sum_by_groups by apply unique_NoDup.
  rewrite filter_all; [reflexivity|].
  intros r Hr. apply existsb_keq_In, unique_In.
  unfold pd.col. now apply in_map.
Qed.

(** ** The overview page *)

Lemma StronglySorted_weaken {A : Type} (R S : A -> A -> Prop) (l : list A) :
  (forall x y, R x y -> S x y) -> StronglySorted R l -> StronglySorted S l.
Proof.
  intros HRS. induction 1 as [|x l Hl IH Hx]; constructor; [assumption|].
  eapply Forall_impl; [|exact Hx]. auto.
Qed.

(** A row of [groupby(key)[value].sum()]: a key of the table with the sum
    of the values of its rows. *)
Lemma groupby_sum_In {K : Type} `{KeyOk K} (k : Registro -> K)
    (v : Registro -> Q) (df : DataFrame) (key : K) (total : Q) :
  In (key, total) (pd.groupby_sum (pd.col k df) (pd.col v df)) ->
  (exists r, In r df /\ k r = key)
  /\ total = pd.sum (pd.col v (filter (fun r => keq (k r) key) df)).
Proof.
  unfold pd.groupby_sum. intros Hin.
  apply in_map_iff in Hin. destruct Hin as [key' [Heq Hkey]].
  rewrite group_values in Heq. injection Heq as -> <-.
  split; [|reflexivity].
  apply (proj1 (sort_In _ _ _)) in Hkey.
  apply (proj1 (unique_In _ _)) in Hkey. unfold pd.col in Hkey.
  apply in_map_iff in Hkey. destruct Hkey as [r [Hr Hin]]. eauto.
Qed.

Lemma groupby_sum_keys_NoDup {K : Type} `{KeyOk K} (keys : list K)
    (values : list Q) :
  NoDup (map fst (pd.groupby_sum keys values)).
Proof.
  unfold pd.groupby_sum. rewrite map_map. simpl. rewrite map_id.
  apply (Permutation_NoDup (l := pd.unique keys)).
  - symmetry. apply sort_Permutation.
  - apply unique_NoDup.
Qed.

Lemma nlargest_spec {K : Type} (n : nat) (s : list (K * Q)) :
  (List.length (pd.nlargest n s) <= n)%nat
  /\ StronglySorted (fun a b => (snd b <= snd a)%Q) (pd.nlargest n s)
  /\ (forall x, In x (pd.nlargest n s) -> In x s)
  /\ (NoDup (map fst s) -> NoDup (map fst (pd.nlargest n s))).
Proof.
  unfold pd.nlargest. repeat split.
  - apply firstn_le_length.
  - apply firstn_StronglySorted.
    apply (StronglySorted_weaken
             (fun a b : K * Q => Qle_bool (snd b) (snd a) = true)).
    + intros x y. apply Qle_bool_iff.
    + apply sort_sorted.
      * intros x y.
        destruct (Qle_bool (snd y) (snd x)) eqn:E; [now left | right].
        apply Qle_bool_iff. apply Qlt_le_weak, Qnot_le_lt.
        intros Hle. apply Qle_bool_iff in Hle. congruence.
      * intros x y z Hxy Hyz. apply Qle_bool_iff in Hxy, Hyz.
        apply Qle_bool_iff. eapply Qle_trans; eassumption.
  - intros x Hx. apply firstn_In in Hx. now apply (proj1 (sort_In _ _ _)) in Hx.
  - intros Hs. rewrite <- firstn_map. apply firstn_NoDup.
    apply (Permutation_NoDup (l := map fst s)); [|assumption].
    apply Permutation_map. symmetry. apply sort_Permutation.
Qed.

(** C5. The top-10 list of the overview page has at most 10 entries, is
    in descending order of total investment, and each entry names a
    company of the filtered table, with the sum of the investments of
    that company's rows; no company is listed twice. *)
Theorem top_companies_spec (filtered_df : DataFrame) :
  (List.length (top_companies filtered_df) <= 10)%nat
  /\ StronglySorted (fun a b => (snd b <= snd a)%Q) (top_companies filtered_df)
  /\ (forall company total,
        In (company, total) (top_companies filtered_df) ->
        (exists r, In r filtered_df /\ empresa r = company)
        /\ total
           = pd.sum (pd.col investimento_ia_usd_milhoes
                       (filter (fun r => String.eqb (empresa r) company)
                               filtered_df)))
  /\ NoDup (map fst (top_companies filtered_df)).
Proof.
  unfold top_companies.
  destruct (nlargest_spec 10
              (pd.groupby_sum (pd.col empresa filtered_df)
                 (pd.col investimento_ia_usd_milhoes filtered_df)))
    as [Hlen [Hsorted [Hin Hnodup]]].
  split; [exact Hlen|]. split; [exact Hsorted|]. split.
  - intros company total Htop.
    apply Hin in Htop. now apply groupby_sum_In in Htop.
  - apply Hnodup, groupby_sum_keys_NoDup.
Qed.

Lemma sum_nonneg (l : list Q) :
  (forall x, In x l -> (0 <= x)%Q) -> (0 <= pd.sum l)%Q.
Proof.
  induction l as [|x l IH]; intros Hpos.
  - apply Qle_refl.
  - rewrite sum_cons. setoid_replace 0%Q with (0 + 0)%Q by ring.
    apply Qplus_le_compat.
    + apply Hpos. now left.
    + apply IH. intros y Hy. apply Hpos. now right.
Qed.

Lemma sum_Permutation (l l' : list Q) :
  Permutation l l' -> (pd.sum l == pd.sum l')%Q.
Proof.
  induction 1 as [| x l l' _ IH | x y l | l l' l'' _ IH1 _ IH2].
  - reflexivity.
  - rewrite !sum_cons, IH. reflexivity.
  - rewrite !sum_cons. ring.
  - now rewrite IH1.
Qed.

(** The sums label by label, before the pie leaves out the negative
    ones and orders the others. *)
Lemma pie_slices_In (labels : list string) (values : list Q)
    (label : string) (share : Q) :
  In (label, share) (px.pie_slices (Pie labels values)) <->
  In label labels
  /\ share = pd.sum (pd.getitem values (map (fun l' => keq l' label) labels))
  /\ (0 <= share)%Q.
Proof.
  unfold px.pie_slices. rewrite sort_In, filter_In, in_map_iff.
  cbn [snd]. rewrite Qle_bool_iff. split.
  - intros [[l [Heq Hl]] Hpos]. injection Heq as -> <-.
    apply (proj1 (unique_In _ _)) in Hl. auto.
  - intros [Hl [-> Hpos]]. split; [|assumption].
    exists label. split; [reflexivity | now apply unique_In].
Qed.

Lemma pie_slices_nonneg (k : Registro -> string) (v : Registro -> Q)
    (df : DataFrame) :
  (forall r, In r df -> (0 <= v r)%Q) ->
  Permutation
    (px.pie_slices (Pie (pd.col k df) (pd.col v df)))
    (map (fun l => (l, pd.sum (pd.col v (filter (fun r => keq (k r) l) df))))
         (pd.unique (pd.col k df))).
Proof.
  intros Hpos. unfold px.pie_slices.
  rewrite sort_Permutation, filter_all.
  - erewrite map_ext; [reflexivity|].
    intros l. cbv beta. now rewrite group_values.
  - intros [l share] Hin. apply in_map_iff in Hin.
    destruct Hin as [l' [Heq _]]. rewrite group_values in Heq.
    injection Heq as -> <-. cbn [snd]. apply Qle_bool_iff, sum_nonneg.
    intros x Hx. unfold pd.col in Hx. apply in_map_iff in Hx.
    destruct Hx as [r [<- Hr]]. apply Hpos.
    apply filter_In in Hr. tauto.
Qed.

(** C6, as amended.  On a filtered table in which no investment is
    negative, the slices of the sector pie of the overview page, each the
    sum of the investments of the rows of one sector, with every sector
    of the table in exactly one slice, add up to the total investment
    shown at the top of the page (in exact arithmetic). *)
Theorem sector_shares_sum (filtered_df : DataFrame) :
  (forall r, In r filtered_df -> (0 <= investimento_ia_usd_milhoes r)%Q) ->
  let slices :=
    px.pie_slices (Pie (pd.col setor filtered_df)
                       (pd.col investimento_ia_usd_milhoes filtered_df)) in
  (forall sector share,
      In (sector, share) slices ->
      share = pd.sum (pd.col investimento_ia_usd_milhoes
                        (filter (fun r => String.eqb (setor r) sector)
                                filtered_df)))
  /\ NoDup (map fst slices)
  /\ (forall r, In r filtered_df -> In (setor r) (map fst slices))
  /\ (pd.sum (map snd slices) == total_investido filtered_df)%Q.
Proof.
  intros Hpos. cbv zeta. unfold total_investido.
  pose proof (pie_slices_nonneg setor investimento_ia_usd_milhoes
                filtered_df Hpos) as Hperm.
  split; [|split; [|split]].
  - intros sector share Hin. apply pie_slices_In in Hin.
    destruct Hin as [_ [-> _]]. now rewrite group_values.
  - apply (Permutation_NoDup (Permutation_sym (Permutation_map fst Hperm))).
    rewrite map_map. cbn [fst]. rewrite map_id. apply unique_NoDup.
  - intros r Hr.
    apply (Permutation_in _ (Permutation_sym (Permutation_map fst Hperm))).
    rewrite map_map. cbn [fst]. rewrite map_id.
    apply unique_In. unfold pd.col. now apply in_map.
  - rewrite (sum_Permutation _ _ (Permutation_map snd Hperm)).
    rewrite map_map. cbn [snd].
    apply (sum_of_all_groups setor investimento_ia_usd_milhoes).
Qed.

Lemma sector_shares_sum_witness :
  (pd.sum (map snd (px.pie_slices
                      (Pie (pd.col setor amostra)
                           (pd.col investimento_ia_usd_milhoes amostra))))
   == total_investido amostra)%Q.
Proof.
  apply (sector_shares_sum amostra).
  intros r Hr. simpl in Hr.
  destruct Hr as [<- | [<- | [<- | [<- | []]]]]; discriminate.
Defined.

(** The claim without the condition on the sign fails: with 15 invested
    in one sector and -3/2 in another, the pie draws the one slice of 15
    while the total of the page is 27/2. *)
Lemma sector_shares_sum_fails_on_negative :
  ~ (pd.sum (map snd (px.pie_slices
                        (Pie (pd.col setor tabela_com_negativo)
                             (pd.col investimento_ia_usd_milhoes
                                     tabela_com_negativo))))
     == total_investido tabela_com_negativo)%Q.
Proof.
  intros Heq. vm_compute in Heq. discriminate Heq.
Qed.

Lemma nth_error_snoc {A : Type} (h : list A) (o : A) :
  nth_error (h ++ [o]) (List.length h) = Some o.
Proof. rewrite nth_error_app2, Nat.sub_diag by lia. reflexivity. Qed.

Lemma update_snoc (h : list Obj) (o o' : Obj) :
  update (List.length h) o' (h ++ [o]) = (h ++ [o'])%list.
Proof. induction h as [|x h IH]; simpl; [reflexivity | now rewrite IH]. Qed.

(** What the overview page does to a world: three figures are made and
    the page receives the three numbers and the three charts. *)
Lemma render_overview_page_runs (w : World) (filtered_df : ref)
    (fdf : DataFrame) :
  at_ w filtered_df = Some (ODataFrame fdf) ->
  let fig1 :=
    mkFigure (data (px.line (investment_by_year fdf)))
             [("line.width", "4"); ("hovermode", "x unified")] in
  let fig2 :=
    px.bar_h (map snd (top_companies fdf)) (map fst (top_companies fdf)) in
  let fig3 :=
    px.pie (pd.col setor fdf) (pd.col investimento_ia_usd_milhoes fdf) in
  render_overview_page filtered_df w
  = Ok tt
      (mkWorld
         (heap w ++ [OFigure fig1; OFigure fig2; OFigure fig3])
         (screen w ++
          [ Header "Visão Geral dos Investimentos em IA";
            Columns 3;
            Column 0 (Metric "Total Investido (USD milhões)"
                        (Amount "${:,.2f}" (Some (total_investido fdf))));
            Column 1 (Metric "Número de Empresas"
                        (Count (numero_empresas fdf)));
            Column 2 (Metric "Crescimento Médio de Lucro"
                        (Amount "{:.2f}%" (crescimento_medio fdf)));
            Markdown "---";
            Subheader "Investimento Total por Ano";
            PlotlyChart fig1;
            Subheader "Top 10 Empresas por Investimento Total";
            PlotlyChart fig2;
            Subheader "Distribuição de Investimentos por Setor";
            PlotlyChart fig3 ])).
Proof.
  unfold at_. intros Hat. cbv zeta.
  unfold render_overview_page, st.plotly_chart, update_traces, update_layout,
    new_figure, bind, read_frame, read_figure, store, alloc, emit.
  rewrite Hat. cbn [heap screen].
  repeat (rewrite ?nth_error_snoc, ?update_snoc; cbn [heap screen data layout]).
  rewrite <- !app_assoc. reflexivity.
Qed.

(** C9. The worked example.  For the table of the two records A
    (Finance, 2020, 10 invested, growth 5) and B (Finance, 2021, 20
    invested, growth -2), whatever their other fields, filtering with the
    sector Finance, the years 2020 to 2021 and all the countries of the
    table returns both records, and on that result the overview page
    computes a total investment of 30, 2 distinct companies and a mean
    profit growth of 3/2, the plain mean over the rows. *)
Theorem example_scenario (paisA paisB : string) (notaA notaB : Q)
    (usoA usoB impactoA impactoB : string) :
  let A := registro_A paisA notaA usoA impactoA in
  let B := registro_B paisB notaB usoB impactoB in
  let filtered :=
    filter_data [A; B] (pd.unique (pd.col pais_sede [A; B])) ["Finance"]
                (2020, 2021) in
  filtered = [A; B]
  /\ total_investido filtered = (30 # 1)%Q
  /\ numero_empresas filtered = 2%nat
  /\ crescimento_medio filtered = Some (3 # 2)%Q.
Proof.
  intros A B filtered.
  assert (Hf : filtered = [A; B]).
  { unfold filtered. rewrite filter_data_filter. apply filter_all.
    intros r Hr. apply keeps_true.
    assert (Hc : In (pais_sede r) (pd.unique (pd.col pais_sede [A; B]))).
    { apply unique_In. unfold pd.col. now apply in_map. }
    split; [exact Hc|].
    destruct Hr as [<- | [<- | []]]; simpl; split; try lia; now left. }
  rewrite Hf. repeat split.
Qed.

(** ** Correlation *)

Section CorrelationFacts.
Local Open Scope R_scope.


Lemma sprod_cons (x y : R) (a b : list R) :
  stats.sprod (x :: a) (y :: b) = x * y + stats.sprod a b.
Proof. reflexivity. Qed.

Lemma sprod_comm (a b : list R) : stats.sprod a b = stats.sprod b a.
Proof.
  revert b. induction a as [|x a IH]; intros [|y b];
    try reflexivity.
  rewrite !sprod_cons, IH. ring.
Qed.





Lemma corr_pair_sym (x y : list R) : stats.corr_pair x y = stats.corr_pair y x.
Proof.
  unfold stats.corr_pair.
  rewrite (Rmult_comm (stats.ssqd y)), (sprod_comm (stats.dev y)).
  reflexivity.
Qed.



Lemma corr_pair_undefined (x y : list R) :
  stats.ssqd x = 0 ->
  stats.corr_pair x y = None /\ stats.corr_pair y x = None.
Proof.
  intros Hx. rewrite (corr_pair_sym y x).
  unfold stats.corr_pair. rewrite Hx, Rmult_0_l, sqrt_0.
  destruct (Req_dec_T 0 0) as [H | H]; [auto | contradiction].
Qed.



End CorrelationFacts.

(** An entry of the matrix is the coefficient of its two columns. *)
Lemma corr_entry_eq (filtered_df : DataFrame) (i j : nat) :
  corr_entry filtered_df i j
  = match nth_error (numeric_cols filtered_df) i,
          nth_error (numeric_cols filtered_df) j with
    | Some x, Some y => stats.corr_pair x y
    | _, _ => None
    end.
Proof.
  unfold corr_entry, stats.corr, numeric_cols.
  destruct i as [|[|[|[|i]]]]; destruct j as [|[|[|[|j]]]]; try reflexivity;
    simpl; try (destruct i; reflexivity); destruct j; reflexivity.
Qed.


(** What the trends page does to a world: two figures are made, and the
    second, shown last, is the heatmap of the correlation matrix. *)
Lemma render_trends_page_runs (w : World) (filtered_df : ref)
    (fdf : DataFrame) :
  at_ w filtered_df = Some (ODataFrame fdf) ->
  let fig_line :=
    px.line_by
      (pd.groupby_sum (combine (pd.col setor fdf) (pd.col ano fdf))
                      (pd.col investimento_ia_usd_milhoes fdf)) in
  let fig_heatmap :=
    px.imshow numeric_names (stats.corr (numeric_cols fdf)) in
  render_trends_page filtered_df w
  = Ok tt
      (mkWorld
         (heap w ++ [OFigure fig_line; OFigure fig_heatmap])
         (screen w ++
          [ Header "Tendências Temporais dos Investimentos em IA";
            Subheader "Evolução dos Investimentos por Setor";
            PlotlyChart fig_line;
            Subheader "Correlação entre Métricas";
            PlotlyChart fig_heatmap ])).
Proof.
  unfold at_. intros Hat. cbv zeta.
  unfold render_trends_page, st.plotly_chart, new_figure, bind, read_frame,
    read_figure, alloc, emit.
  rewrite Hat. cbn [heap screen].
  repeat (rewrite ?nth_error_snoc; cbn [heap screen]).
  rewrite <- !app_assoc. reflexivity.
Qed.




(** ** More on the filter *)

Lemma filter_filter_and {A : Type} (f g : A -> bool) (l : list A) :
  filter f (filter g l) = filter (fun x => g x && f x) l.
Proof.
  induction l as [|x l IH]; simpl; [reflexivity|].
  destruct (g x); simpl; [|exact IH].
  destruct (f x); now rewrite IH.
Qed.

Lemma filter_subsequence {A : Type} (f g : A -> bool) (l : list A) :
  (forall x, In x l -> f x = true -> g x = true) ->
  subsequence (filter f l) (filter g l).
Proof.
  induction l as [|x l IH]; intros Himp; simpl; [constructor|].
  assert (IH' := IH (fun y Hy => Himp y (or_intror Hy))).
  specialize (Himp x (or_introl eq_refl)).
  destruct (f x) eqn:Ef.
  - rewrite (Himp eq_refl). now constructor.
  - destruct (g x); [now constructor | assumption].
Qed.

Lemma subsequence_length {A : Type} (l1 l2 : list A) :
  subsequence l1 l2 -> (List.length l1 <= List.length l2)%nat.
Proof. induction 1; simpl; lia. Qed.

Lemma existsb_both (x : string) (l1 l2 : list string) :
  existsb (String.eqb x) (both l1 l2)
  = existsb (String.eqb x) l1 && existsb (String.eqb x) l2.
Proof.
  apply eq_true_iff_eq.
  rewrite andb_true_iff, !existsb_eqb_In. unfold both.
  rewrite filter_In, existsb_eqb_In. tauto.
Qed.

(** X1. A year interval whose bounds are the wrong way round selects no row. *)
Theorem filter_data_inverted_interval (df : DataFrame)
    (countries sectors : list string) (lo hi : Z) :
  hi < lo -> filter_data df countries sectors (lo, hi) = [].
Proof.
  intros Hinv. rewrite filter_data_filter. apply filter_none.
  intros r _. destruct (keeps countries sectors (lo, hi) r) eqn:E;
    [|reflexivity].
  apply keeps_true in E. lia.
Qed.

Lemma filter_data_inverted_interval_witness :
  filter_data amostra ["Brasil"; "Canada"] ["Finance"; "Saude"] (2021, 2019)
  = [].
Proof.
  apply (filter_data_inverted_interval amostra ["Brasil"; "Canada"]
           ["Finance"; "Saude"] 2021 2019).
  lia.
Defined.

(** X2. The selections are read as sets: two lists of countries with the
    same members, and two lists of sectors with the same members, in
    whatever order and with whatever repetitions, filter alike. *)
Theorem filter_data_selection_as_set (df : DataFrame)
    (countries countries' sectors sectors' : list string)
    (year_range : Z * Z) :
  (forall x, In x countries <-> In x countries') ->
  (forall x, In x sectors <-> In x sectors') ->
  filter_data df countries sectors year_range
  = filter_data df countries' sectors' year_range.
Proof.
  intros Hc Hs. rewrite !filter_data_filter. apply filter_ext.
  intros r. unfold keeps.
  replace (existsb (String.eqb (pais_sede r)) countries')
    with (existsb (String.eqb (pais_sede r)) countries).
  - replace (existsb (String.eqb (setor r)) sectors')
      with (existsb (String.eqb (setor r)) sectors); [reflexivity|].
    apply eq_true_iff_eq. rewrite !existsb_eqb_In. apply Hs.
  - apply eq_true_iff_eq. rewrite !existsb_eqb_In. apply Hc.
Qed.

Lemma filter_data_selection_as_set_witness :
  filter_data amostra ["Brasil"; "Canada"] ["Saude"; "Finance"] (2019, 2021)
  = filter_data amostra ["Canada"; "Brasil"; "Canada"] ["Finance"; "Saude"]
                (2019, 2021).
Proof.
  apply (filter_data_selection_as_set amostra ["Brasil"; "Canada"]
           ["Canada"; "Brasil"; "Canada"] ["Saude"; "Finance"]
           ["Finance"; "Saude"] (2019, 2021));
    intros x; simpl; tauto.
Defined.

(** X3. Narrowing a selection can only remove rows: with fewer countries,
    fewer sectors and a year interval inside the other, the filtered table
    is a subsequence of the other filtered table. *)
Theorem filter_data_monotone (df : DataFrame)
    (countries countries' sectors sectors' : list string)
    (lo hi lo' hi' : Z) :
  incl countries countries' -> incl sectors sectors' ->
  lo' <= lo -> hi <= hi' ->
  subsequence (filter_data df countries sectors (lo, hi))
              (filter_data df countries' sectors' (lo', hi')).
Proof.
  intros Hc Hs Hlo Hhi. rewrite !filter_data_filter.
  apply filter_subsequence. intros r _ Hk.
  apply keeps_true in Hk. apply keeps_true.
  destruct Hk as [H1 [H2 H3]]. repeat split; auto; lia.
Qed.

Lemma filter_data_monotone_witness :
  subsequence (filter_data amostra ["Brasil"] ["Finance"] (2020, 2020))
              (filter_data amostra ["Brasil"; "Canada"] ["Finance"; "Saude"]
                           (2019, 2021)).
Proof.
  apply (filter_data_monotone amostra ["Brasil"] ["Brasil"; "Canada"]
           ["Finance"] ["Finance"; "Saude"] 2020 2020 2019 2021);
    try lia; intros x; simpl; tauto.
Defined.

(** X4. Filtering a filtered table is filtering once with the countries and
    sectors common to the two selections and the intersection of the two
    year intervals; so the order of two filters does not matter. *)
Theorem filter_data_compose (df : DataFrame)
    (c1 c2 s1 s2 : list string) (lo1 hi1 lo2 hi2 : Z) :
  filter_data (filter_data df c1 s1 (lo1, hi1)) c2 s2 (lo2, hi2)
  = filter_data df (both c1 c2) (both s1 s2)
                (Z.max lo1 lo2, Z.min hi1 hi2)
  /\ filter_data (filter_data df c1 s1 (lo1, hi1)) c2 s2 (lo2, hi2)
     = filter_data (filter_data df c2 s2 (lo2, hi2)) c1 s1 (lo1, hi1).
Proof.
  rewrite !filter_data_filter, !filter_filter_and. split.
  - apply filter_ext. intros r. unfold keeps. rewrite !existsb_both.
    cbn [fst snd].
    replace (ano r >=? Z.max lo1 lo2)
      with ((ano r >=? lo1) && (ano r >=? lo2)).
    + replace (ano r <=? Z.min hi1 hi2)
        with ((ano r <=? hi1) && (ano r <=? hi2)).
      * destruct (existsb (String.eqb (pais_sede r)) c1),
          (existsb (String.eqb (pais_sede r)) c2),
          (existsb (String.eqb (setor r)) s1),
          (existsb (String.eqb (setor r)) s2),
          (ano r >=? lo1), (ano r >=? lo2), (ano r <=? hi1),
          (ano r <=? hi2); reflexivity.
      * apply eq_true_iff_eq.
        rewrite andb_true_iff, !Z.leb_le. lia.
    + apply eq_true_iff_eq.
      rewrite andb_true_iff, !Z.geb_le. lia.
  - apply filter_ext. intros r. apply andb_comm.
Qed.

(** ** More on grouping and ranking *)

#[export] Instance pair_KeyOk {A B : Type} `{KeyOk A} `{KeyOk B} :
  KeyOk (A * B).
Proof.
  split.
  - intros [a b] [a' b']. cbn [keq pair_Key fst snd].
    rewrite andb_true_iff, !keq_spec. split.
    + intros [-> ->]. reflexivity.
    + intros [= -> ->]. auto.
  - intros [a b] [a' b']. cbn [kle pair_Key fst snd].
    destruct (keq a a') eqn:E.
    + apply keq_spec in E. subst a'.
      replace (keq a a) with true by (symmetry; now apply keq_spec).
      apply kle_total.
    + destruct (keq a' a) eqn:E'.
      * apply keq_spec in E'. subst a'.
        assert (keq a a = true) by now apply keq_spec. congruence.
      * apply kle_total.
Qed.

(** The sums of the groups add up to the sum of the column. *)
Lemma groupby_sum_total {K : Type} `{KeyOk K} (k : Registro -> K)
    (v : Registro -> Q) (df : DataFrame) :
  (pd.sum (map snd (pd.groupby_sum (pd.col k df) (pd.col v df)))
   == pd.sum (pd.col v df))%Q.
Proof.
  unfold pd.groupby_sum. rewrite map_map. cbn [snd].
  rewrite <- (sum_of_all_groups k v df).
  apply sum_Permutation.
  rewrite (map_ext _ (fun key =>
             pd.sum (pd.col v (filter (fun r => keq (k r) key) df)))).
  - apply Permutation_map, sort_Permutation.
  - intros key. now rewrite group_values.
Qed.

(** Every key of the table has its row in the grouped table. *)
Lemma groupby_sum_has_key {K : Type} `{KeyOk K} (k : Registro -> K)
    (v : Registro -> Q) (df : DataFrame) (r : Registro) :
  In r df ->
  In (k r, pd.sum (pd.col v (filter (fun r' => keq (k r') (k r)) df)))
     (pd.groupby_sum (pd.col k df) (pd.col v df)).
Proof.
  intros Hr. unfold pd.groupby_sum. apply in_map_iff. exists (k r). split.
  - now rewrite group_values.
  - apply sort_In, unique_In. unfold pd.col. now apply in_map.
Qed.

Lemma StronglySorted_NoDup_lt (l : list Z) :
  StronglySorted (fun a b => (a <=? b) = true) l -> NoDup l ->
  StronglySorted Z.lt l.
Proof.
  induction 1 as [|x l Hl IH Hx]; intros Hnd; constructor.
  - apply IH. now inversion Hnd.
  - inversion Hnd as [|? ? Hnotin _]; subst.
    rewrite Forall_forall in *. intros y Hy.
    specialize (Hx y Hy). apply Z.leb_le in Hx.
    assert (x <> y) by (intros ->; contradiction). lia.
Qed.

(** X5. The yearly series of the overview page: the years are in strictly
    increasing order, every year of the filtered table is there, each
    with the sum of the investments of its rows, and the values add up
    to the total investment of the page. *)
Theorem investment_by_year_spec (filtered_df : DataFrame) :
  StronglySorted Z.lt (map fst (investment_by_year filtered_df))
  /\ (forall r, In r filtered_df ->
        In (ano r) (map fst (investment_by_year filtered_df)))
  /\ (forall year total,
        In (year, total) (investment_by_year filtered_df) ->
        (exists r, In r filtered_df /\ ano r = year)
        /\ total
           = pd.sum (pd.col investimento_ia_usd_milhoes
                       (filter (fun r => ano r =? year) filtered_df)))
  /\ (pd.sum (map snd (investment_by_year filtered_df))
      == total_investido filtered_df)%Q.
Proof.
  unfold investment_by_year, total_investido.
  split; [|split; [|split]].
  - apply StronglySorted_NoDup_lt; [|apply groupby_sum_keys_NoDup].
    unfold pd.groupby_sum. rewrite map_map. cbn [fst]. rewrite map_id.
    apply (sort_sorted Z.leb).
    + intros x y. rewrite !Z.leb_le. lia.
    + intros x y z. rewrite !Z.leb_le. lia.
  - intros r Hr.
    apply (in_map fst _ _
             (groupby_sum_has_key ano investimento_ia_usd_milhoes _ r Hr)).
  - intros year total Hin.
    now apply (groupby_sum_In ano investimento_ia_usd_milhoes) in Hin.
  - apply groupby_sum_total.
Qed.

Lemma combine_cols {A B : Type} (f : Registro -> A) (g : Registro -> B)
    (df : DataFrame) :
  combine (pd.col f df) (pd.col g df) = pd.col (fun r => (f r, g r)) df.
Proof.
  unfold pd.col. induction df as [|r df IH]; simpl; [reflexivity|].
  now rewrite IH.
Qed.

(** X6. The table behind the line chart of the trends page: one row per
    sector and year of the filtered table, none twice, each with the sum
    of the investments of its rows, and the sums add up to the total
    investment of the filtered table. *)
Theorem trends_groups_spec (filtered_df : DataFrame) :
  let df_grouped :=
    pd.groupby_sum (combine (pd.col setor filtered_df)
                            (pd.col ano filtered_df))
                   (pd.col investimento_ia_usd_milhoes filtered_df) in
  NoDup (map fst df_grouped)
  /\ (forall r, In r filtered_df ->
        In (setor r, ano r) (map fst df_grouped))
  /\ (forall sector year total,
        In ((sector, year), total) df_grouped ->
        (exists r, In r filtered_df /\ setor r = sector /\ ano r = year)
        /\ total
           = pd.sum (pd.col investimento_ia_usd_milhoes
                       (filter (fun r => String.eqb (setor r) sector
                                         && (ano r =? year))
                               filtered_df)))
  /\ (pd.sum (map snd df_grouped)
      == pd.sum (pd.col investimento_ia_usd_milhoes filtered_df))%Q.
Proof.
  cbv zeta. rewrite combine_cols.
  split; [apply groupby_sum_keys_NoDup|]. split; [|split].
  - intros r Hr.
    apply (in_map fst _ _
             (groupby_sum_has_key (fun r => (setor r, ano r))
                investimento_ia_usd_milhoes _ r Hr)).
  - intros sector year total Hin.
    apply (groupby_sum_In (fun r => (setor r, ano r))
             investimento_ia_usd_milhoes) in Hin.
    destruct Hin as [[r [Hr Heq]] Htotal]. injection Heq as Hs Hy.
    split; [eauto|]. exact Htotal.
  - apply (groupby_sum_total (fun r => (setor r, ano r))).
Qed.

Lemma StronglySorted_app_le {A : Type} (R : A -> A -> Prop) (l1 l2 : list A) :
  StronglySorted R (l1 ++ l2) ->
  forall x y, In x l1 -> In y l2 -> R x y.
Proof.
  induction l1 as [|a l1 IH]; simpl; intros Hs x y Hx Hy; [contradiction|].
  inversion Hs as [|? ? Hs' Ha]; subst.
  destruct Hx as [<- | Hx].
  - rewrite Forall_forall in Ha. apply Ha, in_or_app. now right.
  - now apply IH.
Qed.

Lemma groupby_sum_length {K : Type} `{Key K} (keys : list K) (values : list Q) :
  List.length (pd.groupby_sum keys values) = pd.nunique keys.
Proof.
  unfold pd.groupby_sum, pd.nunique. rewrite length_map.
  apply Permutation_length, sort_Permutation.
Qed.

(** X7. The ranking of the overview page really is the top of the table: it
    lists every company when there are at most 10, exactly 10 otherwise,
    and a company of the filtered table that is not listed has a total
    investment no greater than that of each listed company. *)
Theorem top_companies_are_largest (filtered_df : DataFrame) :
  List.length (top_companies filtered_df)
  = Nat.min 10 (numero_empresas filtered_df)
  /\ (forall r company total,
        In r filtered_df ->
        ~ In (empresa r) (map fst (top_companies filtered_df)) ->
        In (company, total) (top_companies filtered_df) ->
        (pd.sum (pd.col investimento_ia_usd_milhoes
                   (filter (fun r' => String.eqb (empresa r') (empresa r))
                           filtered_df))
         <= total)%Q).
Proof.
  unfold top_companies, numero_empresas, pd.nlargest.
  set (groups := pd.groupby_sum (pd.col empresa filtered_df)
                   (pd.col investimento_ia_usd_milhoes filtered_df)).
  set (ranked := sort (fun a b : string * Q => Qle_bool (snd b) (snd a)) groups).
  split.
  - rewrite length_firstn. f_equal.
    transitivity (List.length groups).
    + apply Permutation_length, sort_Permutation.
    + apply groupby_sum_length.
  - intros r company total Hr Hnot Htop.
    pose proof (groupby_sum_has_key empresa investimento_ia_usd_milhoes
                  filtered_df r Hr) as Hgroup.
    fold groups in Hgroup.
    set (mine := (empresa r,
                  pd.sum (pd.col investimento_ia_usd_milhoes
                            (filter (fun r' => keq (empresa r') (empresa r))
                                    filtered_df)))) in Hgroup.
    apply (sort_In (fun a b : string * Q => Qle_bool (snd b) (snd a)))
      in Hgroup.
    fold ranked in Hgroup.
    rewrite <- (firstn_skipn 10 ranked) in Hgroup.
    apply in_app_or in Hgroup. destruct Hgroup as [Hin | Hin].
    + exfalso. apply Hnot. apply (in_map fst) in Hin. exact Hin.
    + assert (Hsorted : StronglySorted
                          (fun a b : string * Q => (snd b <= snd a)%Q)
                          (firstn 10 ranked ++ skipn 10 ranked)).
      { rewrite firstn_skipn.
        pose proof (nlargest_spec (List.length ranked) groups) as Hn.
        destruct Hn as [_ [Hs _]]. unfold pd.nlargest in Hs.
        fold ranked in Hs. now rewrite firstn_all in Hs. }
      apply (StronglySorted_app_le _ _ _ Hsorted _ _ Htop Hin).
Qed.

Lemma top_companies_are_largest_witness :
  (pd.sum (pd.col investimento_ia_usd_milhoes
             (filter (fun r' => String.eqb (empresa r') "E01") onze_empresas))
   <= 2 # 1)%Q.
Proof.
  apply (proj2 (top_companies_are_largest onze_empresas)
               (mkRegistro "E01" "Brasil" "Finance" 2020 (inject_Z 1) (1 # 1)
                           (5 # 1) "Chatbots" "Alto")
               "E02" (2 # 1)%Q).
  - simpl. tauto.
  - vm_compute. intros H.
    repeat (destruct H as [H | H]; [discriminate H|]). exact H.
  - vm_compute. tauto.
Defined.

(** X8. The distinct-company count: it is 0 exactly on a table without rows,
    never exceeds the number of rows, and filtering cannot raise it. *)
Theorem numero_empresas_bounds (df : DataFrame)
    (countries sectors : list string) (year_range : Z * Z) :
  (numero_empresas df = 0%nat <-> df = [])
  /\ (numero_empresas df <= List.length df)%nat
  /\ (numero_empresas (filter_data df countries sectors year_range)
      <= numero_empresas df)%nat.
Proof.
  unfold numero_empresas, pd.nunique. split; [|split].
  - split.
    + destruct df as [|r df]; [reflexivity|]. simpl. discriminate.
    + intros ->. reflexivity.
  - rewrite <- (length_map empresa df). fold (pd.col empresa df).
    apply NoDup_incl_length; [apply unique_NoDup|].
    intros x Hx. exact (proj1 (unique_In _ _) Hx).
  - apply NoDup_incl_length; [apply unique_NoDup|].
    intros x Hx. apply (proj1 (unique_In _ _)) in Hx. apply unique_In.
    unfold pd.col in *. apply in_map_iff in Hx.
    destruct Hx as [r [<- Hr]]. apply in_map.
    eapply subsequence_In; [apply getitem_subsequence | exact Hr].
Qed.

(** ** Counting values *)

Lemma list_sum_Permutation (l l' : list nat) :
  Permutation l l' -> list_sum l = list_sum l'.
Proof.
  induction 1; simpl; lia.
Qed.

Lemma length_filter_split {A : Type} (f g : A -> bool) (l : list A) :
  (forall x, In x l -> f x = true -> g x = false) ->
  List.length (filter (fun x => f x || g x) l)
  = (List.length (filter f l) + List.length (filter g l))%nat.
Proof.
  induction l as [|x l IH]; intros Hfg; [reflexivity|].
  assert (IH' := IH (fun y Hy => Hfg y (or_intror Hy))).
  specialize (Hfg x (or_introl eq_refl)). simpl.
  destruct (f x) eqn:Ef; simpl.
  - rewrite (Hfg eq_refl). simpl. lia.
  - destruct (g x); simpl; lia.
Qed.

Lemma count_by_groups {K : Type} `{KeyOk K} (l keys : list K) :
  NoDup keys ->
  list_sum (map (fun v => List.length (filter (fun x => keq x v) l)) keys)
  = List.length (filter (fun x => existsb (keq x) keys) l).
Proof.
  induction 1 as [|key keys Hnotin Hnodup IH].
  - simpl. now rewrite (filter_none (fun _ => false)).
  - cbn [map existsb].
    change (list_sum (?a :: ?t)) with (a + list_sum t)%nat.
    rewrite IH. symmetry. apply length_filter_split.
    intros x _ Hx. apply keq_spec in Hx. subst key.
    destruct (existsb (keq x) keys) eqn:E; [|reflexivity].
    apply existsb_keq_In in E. contradiction.
Qed.

(** X9. The table of counts of the company and sector pages: most frequent
    value first, each value of the column once, with the number of rows
    that carry it, which is at least 1; the counts add up to the number
    of rows. *)
Theorem value_counts_spec (s : list string) :
  StronglySorted (fun a b => (snd b <= snd a)%nat) (pd.value_counts s)
  /\ NoDup (map fst (pd.value_counts s))
  /\ (forall x, In x s -> In x (map fst (pd.value_counts s)))
  /\ (forall v n,
        In (v, n) (pd.value_counts s) ->
        In v s
        /\ n = List.length (filter (fun x => String.eqb x v) s)
        /\ (1 <= n)%nat)
  /\ list_sum (map snd (pd.value_counts s)) = List.length s.
Proof.
  unfold pd.value_counts.
  set (counts := map (fun v => (v, List.length
                                     (pd.getitem s (map (fun x => keq x v) s))))
                     (pd.unique s)).
  set (desc := fun a b : string * nat => (snd b <=? snd a)%nat).
  assert (Hfst : map fst counts = pd.unique s).
  { unfold counts. rewrite map_map. cbn [fst]. apply map_id. }
  assert (Hperm : Permutation (sort desc counts) counts)
    by apply sort_Permutation.
  split; [|split; [|split; [|split]]].
  - apply (StronglySorted_weaken (fun a b => desc a b = true)).
    + intros a b. unfold desc. apply Nat.leb_le.
    + apply sort_sorted; unfold desc.
      * intros a b. rewrite !Nat.leb_le. lia.
      * intros a b c. rewrite !Nat.leb_le. lia.
  - apply (Permutation_NoDup (l := map fst counts)).
    + apply Permutation_map. now symmetry.
    + rewrite Hfst. apply unique_NoDup.
  - intros x Hx.
    apply (Permutation_in (l := map fst counts)).
    + apply Permutation_map. now symmetry.
    + rewrite Hfst. now apply unique_In.
  - intros v n Hin. apply (Permutation_in _ Hperm) in Hin.
    unfold counts in Hin. apply in_map_iff in Hin.
    destruct Hin as [v' [Heq Hv]]. rewrite getitem_map_filter in Heq.
    injection Heq as -> <-. apply (proj1 (unique_In _ _)) in Hv.
    split; [assumption|]. split; [reflexivity|].
    assert (Hmem : In v (filter (fun x => String.eqb x v) s)).
    { apply filter_In. split; [assumption | apply String.eqb_refl]. }
    destruct (filter (fun x => String.eqb x v) s); [destruct Hmem|].
    simpl. lia.
  - rewrite (list_sum_Permutation _ _ (Permutation_map snd Hperm)).
    unfold counts. rewrite map_map. cbn [snd].
    rewrite (map_ext _ (fun v => List.length (filter (fun x => keq x v) s))).
    + rewrite count_by_groups by apply unique_NoDup.
      rewrite filter_all; [reflexivity|].
      intros x Hx. now apply existsb_keq_In, unique_In.
    + intros v. now rewrite getitem_map_filter.
Qed.

(** ** Agreement between pages *)

(** X11. The total the sector page shows for a sector of the filtered
    table whose rows have no negative investment is the slice of that
    sector in the pie of the overview page (in exact arithmetic). *)
Theorem sector_total_is_pie_slice (filtered_df : DataFrame) (sector : string) :
  In sector (pd.col setor filtered_df) ->
  (forall r, In r filtered_df -> setor r = sector ->
             (0 <= investimento_ia_usd_milhoes r)%Q) ->
  In (sector,
      pd.sum (pd.col investimento_ia_usd_milhoes
                (pd.getitem filtered_df
                   (pd.eq_ (pd.col setor filtered_df) (Some sector)))))
     (px.pie_slices (Pie (pd.col setor filtered_df)
                         (pd.col investimento_ia_usd_milhoes filtered_df))).
Proof.
  intros Hin Hpos. apply pie_slices_In. split; [assumption|].
  rewrite group_values, getitem_eq_filter. split; [reflexivity|].
  apply sum_nonneg. intros x Hx. unfold pd.col in Hx.
  apply in_map_iff in Hx. destruct Hx as [r [<- Hr]].
  apply filter_In in Hr. destruct Hr as [Hr Hs].
  apply Hpos; [assumption|]. now apply String.eqb_eq.
Qed.

Lemma sector_total_is_pie_slice_witness :
  In ("Saude",
      pd.sum (pd.col investimento_ia_usd_milhoes
                (pd.getitem amostra
                   (pd.eq_ (pd.col setor amostra) (Some "Saude")))))
     (px.pie_slices (Pie (pd.col setor amostra)
                         (pd.col investimento_ia_usd_milhoes amostra))).
Proof.
  apply (sector_total_is_pie_slice amostra "Saude").
  - simpl. tauto.
  - intros r Hr _. simpl in Hr.
    destruct Hr as [<- | [<- | [<- | [<- | []]]]]; discriminate.
Defined.

(** ** The drill-down pages on a table with rows *)

Lemma streamlit_choice_has_rows (u : User) (f : Registro -> string)
    (label : string) (fdf : DataFrame) :
  streamlit_user u -> fdf <> [] ->
  exists c,
    choose_selectbox u label (pd.unique (pd.col f fdf)) = Some c
    /\ In c (pd.col f fdf)
    /\ pd.getitem fdf (pd.eq_ (pd.col f fdf) (Some c))
       = filter (fun r => String.eqb (f r) c) fdf
    /\ filter (fun r => String.eqb (f r) c) fdf <> [].
Proof.
  intros [_ [_ Hsel]] Hne.
  specialize (Hsel label (pd.unique (pd.col f fdf))).
  destruct (choose_selectbox u label (pd.unique (pd.col f fdf))) as [c|].
  - exists c. apply (proj1 (unique_In _ _)) in Hsel.
    split; [reflexivity|]. split; [assumption|].
    split; [apply getitem_eq_filter|].
    unfold pd.col in Hsel. apply in_map_iff in Hsel.
    destruct Hsel as [r [Hfr Hr]]. intros Hempty.
    assert (Hin : In r (filter (fun r => String.eqb (f r) c) fdf)).
    { apply filter_In. split; [assumption|]. rewrite Hfr.
      apply String.eqb_refl. }
    rewrite Hempty in Hin. destruct Hin.
  - exfalso. destruct fdf as [|r fdf]; [now apply Hne|].
    unfold pd.unique in Hsel. simpl in Hsel. discriminate.
Qed.

(** X12. With a company Streamlit can return and a filtered table that has
    rows, the company page never raises and shows no notice: it draws
    the two means of the company's rows, the chart of its yearly series
    and the chart of its counted uses, read from the table of counts
    under the names the script has just given to its columns. *)
Theorem company_page_with_rows (u : User) (w : World) (filtered_df : ref)
    (fdf : DataFrame) :
  at_ w filtered_df = Some (ODataFrame fdf) ->
  streamlit_user u ->
  fdf <> [] ->
  exists company,
    choose_selectbox u "Selecione uma empresa:"
                     (pd.unique (pd.col empresa fdf)) = Some company
    /\ In company (pd.col empresa fdf)
    /\ let df_company :=
         filter (fun r => String.eqb (empresa r) company) fdf in
       let fig :=
         mkFigure
           [ Scatter "Investimento (USD milhões)" (pd.col ano df_company)
                     (pd.col investimento_ia_usd_milhoes df_company);
             SecondaryY
               (Bar "Crescimento de Lucro (%)" (pd.col ano df_company)
                    (pd.col crescimento_lucro df_company)) ]
           [ ("xaxis_title", "Ano"); ("hovermode", "x unified");
             ("yaxis.title", "Investimento (USD milhões)");
             ("yaxis2.title", "Crescimento de Lucro (%)") ] in
       let counts := pd.value_counts (pd.col principais_usos_ia df_company) in
       let fig_usage :=
         px.bar_h (map (fun p => inject_Z (Z.of_nat (snd p))) counts)
                  (map fst counts) in
       render_company_page u filtered_df w
       = Ok tt
           (mkWorld
              (heap w ++
               [ OFigure fig;
                 OCountTable (mkCountTable ["Uso de IA"; "Ocorrências"] counts);
                 OFigure fig_usage ])
              (screen w ++
               [ Header "Análise Detalhada por Empresa";
                 Selectbox "Selecione uma empresa:"
                           (pd.unique (pd.col empresa fdf));
                 Columns 2;
                 Column 0 (Metric "Investimento Médio Anual"
                   (Amount "${:,.2f} milhões"
                      (pd.mean (pd.col investimento_ia_usd_milhoes
                                       df_company))));
                 Column 1 (Metric "Crescimento Médio de Lucro"
                   (Amount "{:.2f}%"
                      (pd.mean (pd.col crescimento_lucro df_company))));
                 Markdown "---";
                 Subheader
                   ("Evolução do Investimento e Crescimento de Lucro - "
                    ++ company);
                 PlotlyChart fig;
                 Subheader ("Principais Usos de IA - " ++ company);
                 PlotlyChart fig_usage ])).
Proof.
  unfold at_. intros Hat Hu Hne.
  destruct (streamlit_choice_has_rows u empresa "Selecione uma empresa:"
              fdf Hu Hne) as [company [Hsel [Hin [Hrows Hsome]]]].
  exists company. split; [exact Hsel|]. split; [exact Hin|]. cbv zeta.
  unfold render_company_page, st.selectbox, st.plotly_chart, update_yaxes,
    update_layout, add_trace, new_figure, value_counts_obj, set_columns,
    table_counts, table_values, bind, read_frame, read_figure, read_table,
    store, alloc, emit, ret.
  rewrite Hat. cbn [heap screen]. rewrite Hsel, Hrows.
  destruct (filter (fun r => String.eqb (empresa r) company) fdf)
    as [|r0 rows] eqn:Erows; [now elim Hsome|].
  cbn [pd.empty str heap screen].
  repeat (rewrite ?nth_error_snoc, ?update_snoc, ?String.eqb_refl;
          cbn [heap screen data layout columns counted app]).
  rewrite <- !app_assoc. reflexivity.
Qed.

Lemma default_user_ok : streamlit_user default_user.
Proof.
  split; [|split].
  - intros label options default x Hincl Hx. simpl in Hx. auto.
  - intros label lo hi value H1 H2. simpl. tauto.
  - intros label options. simpl. destruct options; simpl; auto.
Qed.

Lemma company_page_with_rows_witness :
  returns (render_company_page default_user 0%nat)
          (mkWorld [ODataFrame amostra] []).
Proof.
  destruct (company_page_with_rows default_user
              (mkWorld [ODataFrame amostra] []) 0%nat amostra eq_refl
              default_user_ok)
    as [company [_ [_ Hruns]]]; [discriminate|].
  eexists. eexists. exact Hruns.
Defined.

Lemma scatter_accepts (df : DataFrame) :
  (forall r, In r df -> (0 <= nota_inovacao r)%Q) ->
  exists fig, px.scatter df = Some fig.
Proof.
  intros Hpos. unfold px.scatter.
  replace (forallb (fun r => Qle_bool 0 (nota_inovacao r)) df) with true.
  - eexists. reflexivity.
  - symmetry. apply forallb_forall. intros r Hr.
    apply Qle_bool_iff. now apply Hpos.
Qed.

Lemma scatter_refuses (df : DataFrame) (r : Registro) :
  In r df -> (nota_inovacao r < 0)%Q -> px.scatter df = None.
Proof.
  intros Hr Hneg. unfold px.scatter.
  destruct (forallb (fun r => Qle_bool 0 (nota_inovacao r)) df) eqn:E;
    [|reflexivity].
  rewrite forallb_forall in E. specialize (E r Hr).
  apply Qle_bool_iff in E. exfalso. now apply (Qlt_not_le _ _ Hneg).
Qed.

(** X13. The sector page on a filtered table that has rows, with a sector
    Streamlit can return: no notice is shown, and the three numbers of
    the sector's rows are drawn.  When no innovation score of those rows
    is negative the page goes on to draw the scatter of the rows and the
    pie of their counted impact levels and returns normally; when one is
    negative the scatter call raises [ValueError] and the page stops
    after the heading of the scatter, with no chart drawn. *)
Theorem sector_page_with_rows (u : User) (w : World) (filtered_df : ref)
    (fdf : DataFrame) :
  at_ w filtered_df = Some (ODataFrame fdf) ->
  streamlit_user u ->
  fdf <> [] ->
  exists sector,
    choose_selectbox u "Selecione um setor:"
                     (pd.unique (pd.col setor fdf)) = Some sector
    /\ In sector (pd.col setor fdf)
    /\ let df_sector :=
         filter (fun r => String.eqb (setor r) sector) fdf in
       let counts := pd.value_counts (pd.col impacto_operacional df_sector) in
       let fig_pie :=
         px.pie (map fst counts)
                (map (fun p => inject_Z (Z.of_nat (snd p))) counts) in
       let numbers :=
         [ Header "Análise por Setor Econômico";
           Selectbox "Selecione um setor:" (pd.unique (pd.col setor fdf));
           Columns 3;
           Column 0 (Metric "Total Investido"
             (Amount "${:,.2f} milhões"
                (Some (pd.sum (pd.col investimento_ia_usd_milhoes
                                      df_sector)))));
           Column 1 (Metric "Empresas no Setor"
             (Count (pd.nunique (pd.col empresa df_sector))));
           Column 2 (Metric "Nota Média de Inovação"
             (Amount "{:.1f}" (pd.mean (pd.col nota_inovacao df_sector))));
           Markdown "---";
           Subheader ("Comparação entre Empresas do Setor " ++ sector) ] in
       ((forall r, In r df_sector -> (0 <= nota_inovacao r)%Q) ->
        exists fig,
          px.scatter df_sector = Some fig
          /\ render_sector_page u filtered_df w
             = Ok tt
                 (mkWorld
                    (heap w ++
                     [ OFigure fig;
                       OCountTable
                         (mkCountTable ["Impacto"; "Quantidade"] counts);
                       OFigure fig_pie ])
                    (screen w ++ numbers ++
                     [ PlotlyChart fig;
                       Subheader
                         ("Distribuição do Impacto Operacional no Setor "
                          ++ sector);
                       PlotlyChart fig_pie ])))
       /\ ((exists r, In r df_sector /\ (nota_inovacao r < 0)%Q) ->
           render_sector_page u filtered_df w
           = Raised ValueError (mkWorld (heap w) (screen w ++ numbers))).
Proof.
  unfold at_. intros Hat Hu Hne.
  destruct (streamlit_choice_has_rows u setor "Selecione um setor:"
              fdf Hu Hne) as [sector [Hsel [Hin [Hrows Hsome]]]].
  exists sector. split; [exact Hsel|]. split; [exact Hin|]. cbv zeta.
  split.
  - intros Hpos. destruct (scatter_accepts _ Hpos) as [fig Hfig].
    exists fig. split; [exact Hfig|]. clear Hpos. revert Hfig.
    unfold render_sector_page, st.selectbox, st.plotly_chart, new_figure,
      value_counts_obj, set_columns, table_counts, table_values, checked,
      bind, read_frame, read_figure, read_table, store, alloc, emit, ret.
    rewrite Hat. cbn [heap screen]. rewrite Hsel, Hrows.
    destruct (filter (fun r => String.eqb (setor r) sector) fdf)
      as [|r0 rows]; [now elim Hsome|].
    cbn [pd.empty str heap screen]. intros ->.
    repeat (rewrite ?nth_error_snoc, ?update_snoc, ?String.eqb_refl;
            cbn [heap screen data layout columns counted app]).
    rewrite <- !app_assoc. reflexivity.
  - intros [r [Hr Hneg]].
    pose proof (scatter_refuses _ r Hr Hneg) as Hnone. clear Hr. revert Hnone.
    unfold render_sector_page, st.selectbox, checked, raise,
      bind, read_frame, emit, ret.
    rewrite Hat. cbn [heap screen]. rewrite Hsel, Hrows.
    destruct (filter (fun r => String.eqb (setor r) sector) fdf)
      as [|r0 rows]; [now elim Hsome|].
    cbn [pd.empty str heap screen]. intros ->.
    rewrite <- !app_assoc. reflexivity.
Qed.

Lemma sector_page_with_rows_witness :
  returns (render_sector_page default_user 0%nat)
          (mkWorld [ODataFrame amostra] [])
  /\ exists w',
       render_sector_page default_user 0%nat
         (mkWorld [ODataFrame tabela_com_nota_negativa] [])
       = Raised ValueError w'.
Proof.
  split.
  - destruct (sector_page_with_rows default_user
                (mkWorld [ODataFrame amostra] []) 0%nat amostra eq_refl
                default_user_ok)
      as [sector [Hsel [_ [Hruns _]]]]; [discriminate|].
    injection Hsel as <-.
    destruct Hruns as [fig [_ Hok]].
    + intros r Hr. simpl in Hr.
      destruct Hr as [<- | [<- | [<- | []]]]; discriminate.
    + eexists. eexists. exact Hok.
  - destruct (sector_page_with_rows default_user
                (mkWorld [ODataFrame tabela_com_nota_negativa] []) 0%nat
                tabela_com_nota_negativa eq_refl default_user_ok)
      as [sector [Hsel [_ [_ Hraises]]]]; [discriminate|].
    injection Hsel as <-.
    eexists. apply Hraises.
    eexists. split; [left; reflexivity | reflexivity].
Defined.

(** ** The whole script *)

Lemma bind_ok {A B : Type} (m : M A) (k : A -> M B) (w w' : World) (a : A) :
  m w = Ok a w' -> bind m k w = k a w'.
Proof. unfold bind. now intros ->. Qed.

Lemma configure_page_runs (w : World) :
  configure_page w
  = Ok tt
      (mkWorld (heap w)
         (screen w ++
          [ PageConfig "Avanço da IA nas Empresas" ":bar_chart:" "wide";
            Title "Avanço da Inteligência Artificial nas Empresas (2015–2024)";
            Text "Autores: Flamarion Fagundes, Lucas Fetter e Vitor Edson" ])).
Proof.
  unfold configure_page, bind, emit. cbn [heap screen].
  rewrite <- !app_assoc. reflexivity.
Qed.

Lemma render_sidebar_help_runs (w : World) :
  exists shown,
    render_sidebar_help w = Ok tt (mkWorld (heap w) (screen w ++ shown)).
Proof.
  eexists. unfold render_sidebar_help, bind, emit. cbn [heap screen].
  rewrite <- !app_assoc. reflexivity.
Qed.

Lemma fold_min_In (l : list Z) (a : Z) : In (fold_left Z.min l a) (a :: l).
Proof.
  revert a. induction l as [|y l IH]; intros a; simpl; [now left|].
  destruct (IH (Z.min a y)) as [H | H].
  - rewrite <- H. destruct (Z.min_spec a y) as [[_ ->] | [_ ->]]; auto.
  - auto.
Qed.

Lemma fold_max_In (l : list Z) (a : Z) : In (fold_left Z.max l a) (a :: l).
Proof.
  revert a. induction l as [|y l IH]; intros a; simpl; [now left|].
  destruct (IH (Z.max a y)) as [H | H].
  - rewrite <- H. destruct (Z.max_spec a y) as [[_ ->] | [_ ->]]; auto.
  - auto.
Qed.

(** X14. The sidebar on a table with rows: the two multiselects offer the
    countries and the sectors of the table, each once, and the bounds of
    the year slider are the least and the greatest year of the table,
    both of which occur in it.  When the table spans more than one year
    the function returns what the user chose, having drawn its six
    controls; when all the rows share one year the slider call raises and
    the function stops after the two multiselects.  The heap is left
    alone in both cases. *)
Theorem sidebar_offers_dataset_values (u : User) (w : World) (df : ref)
    (d : DataFrame) :
  at_ w df = Some (ODataFrame d) ->
  d <> [] ->
  let countries := pd.unique (pd.col pais_sede d) in
  let sectors := pd.unique (pd.col setor d) in
  let drawn :=
    [ Sidebar (Image "assets/logo-faccat.png" 120);
      Sidebar (Header "Filtros");
      Sidebar (Multiselect "Selecione os países:" countries countries);
      Sidebar (Multiselect "Selecione os setores:" sectors sectors) ] in
  exists lo hi,
    pd.min (pd.col ano d) = Some lo /\ pd.max (pd.col ano d) = Some hi
    /\ In lo (pd.col ano d) /\ In hi (pd.col ano d) /\ lo <= hi
    /\ NoDup countries /\ NoDup sectors
    /\ (forall r, In r d -> In (pais_sede r) countries
                            /\ In (setor r) sectors
                            /\ lo <= ano r <= hi)
    /\ (lo < hi ->
        render_sidebar_filters u df w
        = Ok (choose_multiselect u "Selecione os países:" countries countries,
              choose_multiselect u "Selecione os setores:" sectors sectors,
              choose_slider u "Selecione o intervalo de anos:" lo hi (lo, hi),
              choose_selectbox u "Navegação" pages)
             (mkWorld (heap w)
                (screen w ++ drawn ++
                 [ Sidebar (Slider "Selecione o intervalo de anos:"
                                   lo hi (lo, hi));
                   Sidebar (Selectbox "Navegação" pages) ])))
    /\ (lo = hi ->
        render_sidebar_filters u df w
        = Raised StreamlitAPIException
                 (mkWorld (heap w) (screen w ++ drawn))).
Proof.
  unfold at_. intros Hat Hne. cbv zeta.
  destruct d as [|r0 d]; [now elim Hne|].
  destruct (pd.min (pd.col ano (r0 :: d))) as [lo|] eqn:Hlo;
    [|discriminate].
  destruct (pd.max (pd.col ano (r0 :: d))) as [hi|] eqn:Hhi;
    [|discriminate].
  exists lo, hi.
  assert (Hlo_in : In lo (pd.col ano (r0 :: d))).
  { simpl in Hlo. injection Hlo as <-. apply fold_min_In. }
  assert (Hhi_in : In hi (pd.col ano (r0 :: d))).
  { simpl in Hhi. injection Hhi as <-. apply fold_max_In. }
  split; [reflexivity|]. split; [reflexivity|].
  split; [exact Hlo_in|]. split; [exact Hhi_in|].
  split; [exact (min_lower_bound _ _ Hlo hi Hhi_in)|].
  split; [apply unique_NoDup|]. split; [apply unique_NoDup|].
  split; [|split].
  - intros r Hr. split; [|split; [|split]].
    + apply unique_In. unfold pd.col. now apply in_map.
    + apply unique_In. unfold pd.col. now apply in_map.
    + apply (min_lower_bound _ _ Hlo). unfold pd.col. now apply in_map.
    + apply (max_upper_bound _ _ Hhi). unfold pd.col. now apply in_map.
  - intros Hlt. apply Z.ltb_lt in Hlt.
    unfold render_sidebar_filters, st.sidebar_multiselect, st.sidebar_slider,
      st.sidebar_selectbox, bind, read_frame, emit, ret.
    rewrite Hat. cbn [heap screen]. rewrite Hlo, Hhi.
    cbn [int ret heap screen]. unfold ret. rewrite Hlt.
    cbn [heap screen]. rewrite <- !app_assoc. reflexivity.
  - intros Heq. subst hi.
    unfold render_sidebar_filters, st.sidebar_multiselect, st.sidebar_slider,
      st.sidebar_selectbox, bind, read_frame, emit, ret, raise.
    rewrite Hat. cbn [heap screen]. rewrite Hlo, Hhi.
    cbn [int ret heap screen]. unfold ret. rewrite Z.ltb_irrefl.
    rewrite <- !app_assoc. reflexivity.
Qed.

Lemma sidebar_offers_dataset_values_witness :
  returns (render_sidebar_filters default_user 0%nat)
          (mkWorld [ODataFrame amostra] [])
  /\ exists w',
       render_sidebar_filters default_user 0%nat
         (mkWorld [ODataFrame onze_empresas] [])
       = Raised StreamlitAPIException w'.
Proof.
  split.
  - destruct (sidebar_offers_dataset_values default_user
                (mkWorld [ODataFrame amostra] []) 0%nat amostra eq_refl)
      as [lo [hi [Hlo [Hhi [_ [_ [_ [_ [_ [_ [Hruns _]]]]]]]]]]];
      [discriminate|].
    vm_compute in Hlo, Hhi. injection Hlo as <-. injection Hhi as <-.
    eexists. eexists. apply Hruns. reflexivity.
  - destruct (sidebar_offers_dataset_values default_user
                (mkWorld [ODataFrame onze_empresas] []) 0%nat onze_empresas
                eq_refl)
      as [lo [hi [Hlo [Hhi [_ [_ [_ [_ [_ [_ [_ Hraises]]]]]]]]]]];
      [discriminate|].
    vm_compute in Hlo, Hhi. injection Hlo as <-. injection Hhi as <-.
    eexists. apply Hraises. reflexivity.
Defined.

(** X15. The two ways the script stops at start-up.  Without the data
    file it raises [FileNotFoundError] with only the page title drawn;
    on a table without rows it raises [ValueError] while setting up the
    year slider, after the two multiselects, empty, are drawn.  In both
    cases no page is drawn and no filtering takes place. *)
Theorem main_startup_failures (u : User) (w : World) :
  let titled :=
    [ PageConfig "Avanço da IA nas Empresas" ":bar_chart:" "wide";
      Title "Avanço da Inteligência Artificial nas Empresas (2015–2024)";
      Text "Autores: Flamarion Fagundes, Lucas Fetter e Vitor Edson" ] in
  main u None w
  = Raised FileNotFoundError (mkWorld (heap w) (screen w ++ titled))
  /\ main u (Some []) w
     = Raised ValueError
         (mkWorld (heap w ++ [ODataFrame []])
            (screen w ++ titled ++
             [ Sidebar (Image "assets/logo-faccat.png" 120);
               Sidebar (Header "Filtros");
               Sidebar (Multiselect "Selecione os países:" [] []);
               Sidebar (Multiselect "Selecione os setores:" [] []) ])).
Proof.
  cbv zeta. split.
  - unfold main. rewrite (bind_ok _ _ _ _ _ (configure_page_runs w)).
    reflexivity.
  - unfold main. rewrite (bind_ok _ _ _ _ _ (configure_page_runs w)).
    unfold load_data, render_sidebar_filters, st.sidebar_multiselect, bind,
      read_frame, alloc, emit, ret.
    cbn [heap screen].
    rewrite nth_error_snoc. cbn [pd.col map pd.min pd.max int].
    unfold raise. cbn [heap screen]. rewrite <- !app_assoc. reflexivity.
Qed.

Lemma render_overview_page_returns (w : World) (filtered_df : ref)
    (fdf : DataFrame) :
  at_ w filtered_df = Some (ODataFrame fdf) ->
  returns (render_overview_page filtered_df) w.
Proof.
  intros Hat. eexists. eexists.
  apply (render_overview_page_runs w filtered_df fdf Hat).
Qed.

Lemma render_trends_page_returns (w : World) (filtered_df : ref)
    (fdf : DataFrame) :
  at_ w filtered_df = Some (ODataFrame fdf) ->
  returns (render_trends_page filtered_df) w.
Proof.
  intros Hat. eexists. eexists.
  apply (render_trends_page_runs w filtered_df fdf Hat).
Qed.

Lemma render_company_page_returns (u : User) (w : World) (filtered_df : ref)
    (fdf : DataFrame) :
  at_ w filtered_df = Some (ODataFrame fdf) ->
  returns (render_company_page u filtered_df) w.
Proof.
  unfold at_, returns. intros Hat.
  unfold render_company_page, st.selectbox, st.plotly_chart, update_yaxes,
    update_layout, add_trace, new_figure, value_counts_obj, set_columns,
    table_counts, table_values, bind, read_frame, read_figure, read_table,
    store, alloc, emit, ret.
  rewrite Hat. cbn [heap screen].
  destruct (pd.getitem fdf _) as [|r0 rows]; cbn [pd.empty heap screen].
  - eexists. eexists. reflexivity.
  - repeat (rewrite ?nth_error_snoc, ?update_snoc, ?String.eqb_refl;
            cbn [heap screen data layout columns counted app]).
    eexists. eexists. reflexivity.
Qed.

Lemma render_sector_page_returns (u : User) (w : World) (filtered_df : ref)
    (fdf : DataFrame) :
  at_ w filtered_df = Some (ODataFrame fdf) ->
  (forall r, In r fdf -> (0 <= nota_inovacao r)%Q) ->
  returns (render_sector_page u filtered_df) w.
Proof.
  unfold at_, returns. intros Hat Hpos.
  destruct (scatter_accepts
              (pd.getitem fdf
                 (pd.eq_ (pd.col setor fdf)
                    (choose_selectbox u "Selecione um setor:"
                       (pd.unique (pd.col setor fdf))))))
    as [fig Hfig].
  { intros r Hr. apply Hpos.
    eapply subsequence_In; [apply getitem_subsequence | exact Hr]. }
  revert Hfig.
  unfold render_sector_page, st.selectbox, st.plotly_chart, new_figure,
    value_counts_obj, set_columns, table_counts, table_values, checked, bind,
    read_frame, read_figure, read_table, store, alloc, emit, ret.
  rewrite Hat. cbn [heap screen].
  destruct (pd.getitem fdf _) as [|r0 rows]; cbn [pd.empty heap screen].
  - intros _. eexists. eexists. reflexivity.
  - intros ->.
    repeat (rewrite ?nth_error_snoc, ?update_snoc, ?String.eqb_refl;
            cbn [heap screen data layout columns counted app]).
    eexists. eexists. reflexivity.
Qed.

(** The sidebar on a table that spans more than one year returns the
    user's choices and leaves the heap alone. *)
Lemma render_sidebar_filters_runs (u : User) (w : World) (df : ref)
    (d : DataFrame) (lo hi : Z) :
  at_ w df = Some (ODataFrame d) ->
  pd.min (pd.col ano d) = Some lo ->
  pd.max (pd.col ano d) = Some hi ->
  lo < hi ->
  exists shown,
    render_sidebar_filters u df w
    = Ok (choose_multiselect u "Selecione os países:"
            (pd.unique (pd.col pais_sede d)) (pd.unique (pd.col pais_sede d)),
          choose_multiselect u "Selecione os setores:"
            (pd.unique (pd.col setor d)) (pd.unique (pd.col setor d)),
          choose_slider u "Selecione o intervalo de anos:" lo hi (lo, hi),
          choose_selectbox u "Navegação" pages)
         (mkWorld (heap w) (screen w ++ shown)).
Proof.
  unfold at_. intros Hat Hlo Hhi Hlt. apply Z.ltb_lt in Hlt. eexists.
  unfold render_sidebar_filters, st.sidebar_multiselect, st.sidebar_slider,
    st.sidebar_selectbox, bind, read_frame, emit, ret.
  rewrite Hat. cbn [heap screen]. rewrite Hlo, Hhi.
  cbn [int ret heap screen]. unfold ret. rewrite Hlt.
  cbn [heap screen]. rewrite <- !app_assoc. reflexivity.
Qed.

(** All the countries, all the sectors and the whole range of years of a
    table keep every row. *)
Lemma filter_data_keeps_all (d : DataFrame) (lo hi : Z) :
  pd.min (pd.col ano d) = Some lo ->
  pd.max (pd.col ano d) = Some hi ->
  filter_data d (pd.unique (pd.col pais_sede d))
                (pd.unique (pd.col setor d)) (lo, hi) = d.
Proof.
  intros Hlo Hhi. rewrite filter_data_filter. apply filter_all.
  intros r Hr. apply keeps_true.
  assert (Hano : In (ano r) (pd.col ano d))
    by (unfold pd.col; now apply in_map).
  split; [|split; [|split]].
  - apply unique_In. unfold pd.col. now apply in_map.
  - apply unique_In. unfold pd.col. now apply in_map.
  - exact (min_lower_bound _ _ Hlo _ Hano).
  - exact (max_upper_bound _ _ Hhi _ Hano).
Qed.

(** X16. On a table that spans more than one year and holds no negative
    innovation score, nothing in the script raises: whatever the user
    selects in the sidebar and on the pages, even a selection that keeps
    no row, [main] returns normally.  (What can raise is a read of an
    object, [int], the year slider, the scatter chart and a column looked
    up by name; the logo file is taken to be in place.) *)
Theorem main_returns_on_rows (u : User) (d : DataFrame) (w : World)
    (lo hi : Z) :
  pd.min (pd.col ano d) = Some lo ->
  pd.max (pd.col ano d) = Some hi ->
  lo < hi ->
  (forall r, In r d -> (0 <= nota_inovacao r)%Q) ->
  returns (main u (Some d)) w.
Proof.
  intros Hlo Hhi Hlt Hpos.
  assert (Hne : d <> []) by (intros ->; discriminate).
  unfold returns, main.
  rewrite (bind_ok _ _ _ _ _ (configure_page_runs w)).
  set (w0 := mkWorld (heap w) _).
  assert (Hload : load_data (Some d) w0
                  = Ok (List.length (heap w))
                       (mkWorld (heap w ++ [ODataFrame d]) (screen w0)))
    by reflexivity.
  rewrite (bind_ok _ _ _ _ _ Hload).
  set (w1 := mkWorld (heap w ++ [ODataFrame d]) (screen w0)).
  assert (Hat1 : at_ w1 (List.length (heap w)) = Some (ODataFrame d))
    by apply nth_error_snoc.
  destruct (render_sidebar_filters_runs u w1 _ d lo hi Hat1 Hlo Hhi Hlt)
    as [drawn Hside].
  rewrite (bind_ok _ _ _ _ _ Hside).
  set (w2 := mkWorld (heap w1) _).
  destruct (render_sidebar_help_runs w2) as [shown Hhelp].
  rewrite (bind_ok _ _ _ _ _ Hhelp).
  set (w3 := mkWorld (heap w2) _).
  assert (Hat3 : at_ w3 (List.length (heap w)) = Some (ODataFrame d))
    by exact Hat1.
  rewrite (bind_ok _ _ _ _ _
             (filter_data_obj_runs w3 _ d _ _ _ Hat3)).
  set (fdf := filter_data d _ _ _).
  set (w4 := mkWorld (heap w3 ++ _) _).
  assert (Hat4 : at_ w4 (List.length (heap w3)) = Some (ODataFrame fdf))
    by apply nth_error_snoc.
  assert (Hpos4 : forall r, In r fdf -> (0 <= nota_inovacao r)%Q).
  { intros r Hr. apply Hpos.
    eapply subsequence_In; [apply getitem_subsequence | exact Hr]. }
  destruct (page_is _ "Visão Geral");
    [exact (render_overview_page_returns _ _ _ Hat4)|].
  destruct (page_is _ "Análise por Empresa");
    [exact (render_company_page_returns u _ _ _ Hat4)|].
  destruct (page_is _ "Análise por Setor");
    [exact (render_sector_page_returns u _ _ _ Hat4 Hpos4)|].
  destruct (page_is _ "Tendências Temporais");
    [exact (render_trends_page_returns _ _ _ Hat4)|].
  eexists. eexists. reflexivity.
Qed.

Lemma main_returns_on_rows_witness :
  returns (main default_user (Some amostra)) blank.
Proof.
  apply (main_returns_on_rows default_user amostra blank 2019 2021).
  - reflexivity.
  - reflexivity.
  - lia.
  - intros r Hr. simpl in Hr.
    destruct Hr as [<- | [<- | [<- | [<- | []]]]]; discriminate.
Defined.

(** X17. With every control left at its default, on a table that spans
    more than one year, the script shows the overview of the whole table:
    the filtered table it builds is the loaded table itself, and the
    three numbers at the top of the page are the total, the company count
    and the mean growth of all the rows. *)
Theorem main_default_shows_whole_table (d : DataFrame) (w : World)
    (lo hi : Z) :
  pd.min (pd.col ano d) = Some lo ->
  pd.max (pd.col ano d) = Some hi ->
  lo < hi ->
  exists w',
    main default_user (Some d) w = Ok tt w'
    /\ at_ w' (List.length (heap w)) = Some (ODataFrame d)
    /\ at_ w' (S (List.length (heap w))) = Some (ODataFrame d)
    /\ In (Column 0 (Metric "Total Investido (USD milhões)"
                       (Amount "${:,.2f}" (Some (total_investido d)))))
          (screen w')
    /\ In (Column 1 (Metric "Número de Empresas"
                       (Count (numero_empresas d))))
          (screen w')
    /\ In (Column 2 (Metric "Crescimento Médio de Lucro"
                       (Amount "{:.2f}%" (crescimento_medio d))))
          (screen w').
Proof.
  intros Hlo Hhi Hlt.
  assert (Hne : d <> []) by (intros ->; discriminate).
  unfold main.
  rewrite (bind_ok _ _ _ _ _ (configure_page_runs w)).
  set (w0 := mkWorld (heap w) _).
  assert (Hload : load_data (Some d) w0
                  = Ok (List.length (heap w))
                       (mkWorld (heap w ++ [ODataFrame d]) (screen w0)))
    by reflexivity.
  rewrite (bind_ok _ _ _ _ _ Hload).
  set (w1 := mkWorld (heap w ++ [ODataFrame d]) (screen w0)).
  assert (Hat1 : at_ w1 (List.length (heap w)) = Some (ODataFrame d))
    by apply nth_error_snoc.
  destruct (render_sidebar_filters_runs default_user w1 _ d lo hi
              Hat1 Hlo Hhi Hlt) as [drawn Hside].
  rewrite (bind_ok _ _ _ _ _ Hside). cbn [default_user choose_multiselect
    choose_slider choose_selectbox pages hd_error].
  set (w2 := mkWorld (heap w1) _).
  destruct (render_sidebar_help_runs w2) as [shown Hhelp].
  rewrite (bind_ok _ _ _ _ _ Hhelp).
  set (w3 := mkWorld (heap w2) _).
  assert (Hat3 : at_ w3 (List.length (heap w)) = Some (ODataFrame d))
    by exact Hat1.
  rewrite (bind_ok _ _ _ _ _
             (filter_data_obj_runs w3 _ d _ _ _ Hat3)).
  rewrite (filter_data_keeps_all d lo hi Hlo Hhi).
  set (w4 := mkWorld (heap w3 ++ _) _).
  assert (Hlen3 : List.length (heap w3) = S (List.length (heap w))).
  { unfold w3, w2, w1. cbn [heap]. rewrite length_app. simpl. lia. }
  assert (Hat4 : at_ w4 (List.length (heap w3)) = Some (ODataFrame d))
    by apply nth_error_snoc.
  replace (page_is (Some "Visão Geral") "Visão Geral") with true
    by (symmetry; apply String.eqb_refl).
  eexists. split.
  - apply (render_overview_page_runs w4 _ d Hat4).
  - cbn [heap screen]. unfold at_. cbn [heap].
    assert (Hheap4 : heap w4 = (heap w ++ [ODataFrame d; ODataFrame d])%list).
    { unfold w4, w3, w2, w1. cbn [heap]. now rewrite <- app_assoc. }
    rewrite Hheap4, <- !app_assoc.
    split.
    { rewrite nth_error_app2, Nat.sub_diag by lia. reflexivity. }
    split.
    { rewrite nth_error_app2 by lia.
      replace (S (List.length (heap w)) - List.length (heap w))%nat
        with 1%nat by lia.
      reflexivity. }
    repeat split; apply in_or_app; right; simpl; tauto.
Qed.

Lemma main_default_shows_whole_table_witness :
  exists w',
    main default_user (Some amostra) blank = Ok tt w'
    /\ at_ w' 1%nat = Some (ODataFrame amostra).
Proof.
  destruct (main_default_shows_whole_table amostra blank 2019 2021)
    as [w' [Hruns [_ [Hat _]]]]; [reflexivity | reflexivity | lia |].
  exists w'. split; assumption.
Defined.

(** ** Correlation on few rows *)

Lemma ssqd_short (x : list R) :
  (List.length x <= 1)%nat -> stats.ssqd x = 0%R.
Proof.
  destruct x as [|a [|b x]]; simpl; intros Hlen; try lia.
  - reflexivity.
  - unfold stats.ssqd, stats.sprod, stats.dev, stats.average, stats.total.
    simpl. field.
Qed.

(** X18. A filtered table with fewer than two rows has no correlation to
    show: every entry of the matrix of the trends page is NaN. *)
Theorem corr_needs_two_rows (filtered_df : DataFrame) (i j : nat) :
  (List.length filtered_df <= 1)%nat ->
  corr_entry filtered_df i j = None.
Proof.
  intros Hlen. rewrite corr_entry_eq.
  destruct (nth_error (numeric_cols filtered_df) i) as [x|] eqn:Hx;
    [|reflexivity].
  destruct (nth_error (numeric_cols filtered_df) j) as [y|];
    [|reflexivity].
  refine (proj1 (corr_pair_undefined x y _)). apply ssqd_short.
  apply nth_error_In in Hx. unfold numeric_cols, pd.col in Hx.
  simpl in Hx.
  destruct Hx as [<- | [<- | [<- | [<- | []]]]];
    rewrite !length_map; exact Hlen.
Qed.

Lemma corr_needs_two_rows_witness :
  corr_entry [registro_A "Brasil" (7 # 1) "Chatbots" "Alto"] 0 1 = None.
Proof.
  apply (corr_needs_two_rows
           [registro_A "Brasil" (7 # 1) "Chatbots" "Alto"] 0 1).
  simpl. lia.
Defined.

(** ** The overview page on edge inputs *)

(** X19. Unlike the drill-down pages, the overview page has no guard for a
    filtered table without rows: it returns normally and shows a total
    of 0, a count of 0, a mean that is NaN and three charts without
    data, and no notice. *)
Theorem overview_page_without_rows (w : World) (filtered_df : ref) :
  at_ w filtered_df = Some (ODataFrame []) ->
  render_overview_page filtered_df w
  = Ok tt
      (mkWorld
         (heap w ++
          [ OFigure (mkFigure [Scatter "" [] []]
                       [("line.width", "4"); ("hovermode", "x unified")]);
            OFigure (mkFigure [BarH [] []] []);
            OFigure (mkFigure [Pie [] []] []) ])
         (screen w ++
          [ Header "Visão Geral dos Investimentos em IA";
            Columns 3;
            Column 0 (Metric "Total Investido (USD milhões)"
                        (Amount "${:,.2f}" (Some (0 # 1)%Q)));
            Column 1 (Metric "Número de Empresas" (Count 0));
            Column 2 (Metric "Crescimento Médio de Lucro"
                        (Amount "{:.2f}%" None));
            Markdown "---";
            Subheader "Investimento Total por Ano";
            PlotlyChart (mkFigure [Scatter "" [] []]
                           [("line.width", "4"); ("hovermode", "x unified")]);
            Subheader "Top 10 Empresas por Investimento Total";
            PlotlyChart (mkFigure [BarH [] []] []);
            Subheader "Distribuição de Investimentos por Setor";
            PlotlyChart (mkFigure [Pie [] []] []) ])).
Proof.
  intros Hat. rewrite (render_overview_page_runs w filtered_df [] Hat).
  reflexivity.
Qed.

Lemma overview_page_without_rows_witness :
  returns (render_overview_page 0%nat) (mkWorld [ODataFrame []] []).
Proof.
  eexists. eexists.
  apply (overview_page_without_rows (mkWorld [ODataFrame []] []) 0%nat).
  reflexivity.
Defined.

Lemma sum_filter_le (v : Registro -> Q) (f : Registro -> bool)
    (df : DataFrame) :
  (forall r, In r df -> (0 <= v r)%Q) ->
  (0 <= pd.sum (pd.col v (filter f df)) <= pd.sum (pd.col v df))%Q.
Proof.
  unfold pd.col. induction df as [|r df IH]; intros Hpos.
  - split; apply Qle_refl.
  - destruct (IH (fun r' Hr' => Hpos r' (or_intror Hr'))) as [IH1 IH2].
    specialize (Hpos r (or_introl eq_refl)). simpl.
    destruct (f r); simpl; rewrite ?sum_cons.
    + split.
      * setoid_replace 0%Q with (0 + 0)%Q by ring.
        now apply Qplus_le_compat.
      * apply Qplus_le_compat; [apply Qle_refl | assumption].
    + split; [assumption|].
      setoid_replace (pd.sum (map v (filter f df)))
        with (0 + pd.sum (map v (filter f df)))%Q by ring.
      now apply Qplus_le_compat.
Qed.

(** X20. In exact arithmetic (sums that neither round nor wrap around):
    when no investment of the table is negative, filtering cannot raise
    the total investment, and the total of the filtered table is not
    negative. *)
Theorem total_investido_monotone (df : DataFrame)
    (countries sectors : list string) (year_range : Z * Z) :
  (forall r, In r df -> (0 <= investimento_ia_usd_milhoes r)%Q) ->
  (0 <= total_investido (filter_data df countries sectors year_range)
   <= total_investido df)%Q.
Proof.
  intros Hpos. unfold total_investido. rewrite filter_data_filter.
  now apply sum_filter_le.
Qed.

Lemma total_investido_monotone_witness :
  (0 <= total_investido
          (filter_data amostra ["Brasil"] ["Saude"] (2015, 2024)%Z)
   <= total_investido amostra)%Q.
Proof.
  apply (total_investido_monotone amostra ["Brasil"] ["Saude"] (2015, 2024)).
  intros r Hr. simpl in Hr.
  destruct Hr as [<- | [<- | [<- | [<- | []]]]]; discriminate.
Defined.
